(** * MEDISCOPE lab micro-service: [Server/LabMicroservice.py]

    A shallow embedding of the three functions of the service,
    [extract_text], [summarize_with_gemini] and the [/parse] route handler
    [parse], followed by the properties of the request-handling contract.

    Python strings are sequences of Unicode code points; [len], slicing and
    [strip] all work on code points, so a string is a list of code points
    here.  The handler is effectful: it touches the upload directory, the
    process-wide OCR reader and four outside capabilities (EasyOCR, PyMuPDF,
    the Gemini client and the multipart file object).  Effects are modelled
    by a state-and-exception monad over a [world]; the outcome of each
    outside call is given by an [externals] record, over which every
    theorem is quantified. *)

From Stdlib Require Import ZArith NArith Ascii String.
From Stdlib.Strings Require Import Byte.
From stdpp Require Import base option list gmap fin_maps strings.

(** ** Strings *)

Module Py.

(** A Python [str]: its code points. *)
Abbreviation pystr := (list N).

(** The code points of a literal made of ASCII characters. *)
Fixpoint py (s : string) : pystr :=
  match s with
  | EmptyString => []
  | String a s' => N_of_ascii a :: py s'
  end.

(** ["\n"] *)
Definition NL : N := 10%N.

(** [str.isspace] on one code point: the table of CPython's
    [_PyUnicode_IsWhitespace]. *)
Definition isspace (c : N) : bool :=
  ((9 <=? c) && (c <=? 13) || (28 <=? c) && (c <=? 32)
   || (c =? 133) || (c =? 160) || (c =? 5760)
   || (8192 <=? c) && (c <=? 8202)
   || (c =? 8232) || (c =? 8233) || (c =? 8239) || (c =? 8287)
   || (c =? 12288))%N.

Fixpoint lstrip (s : pystr) : pystr :=
  match s with
  | [] => []
  | c :: s' => if isspace c then lstrip s' else s
  end.

Definition rstrip (s : pystr) : pystr := rev (lstrip (rev s)).

(** [s.strip()] *)
Definition strip (s : pystr) : pystr := rstrip (lstrip s).

(** [sep.join(parts)] *)
Fixpoint join (sep : pystr) (parts : list pystr) : pystr :=
  match parts with
  | [] => []
  | [p] => p
  | p :: rest => p ++ sep ++ join sep rest
  end.

(** [s.lower()] per code point.  Exact on ASCII, on the Kelvin sign
    (U+212A, lowered to [k]) and on the dotted capital I (U+0130, lowered to
    [i] followed by U+0307).  Every other code point outside ASCII lowers to
    code points outside ASCII and is left as it is: the only use of [lower]
    is a comparison with ASCII extensions, which such a code point fails
    either way. *)
Definition lower_char (c : N) : pystr :=
  if ((65 <=? c) && (c <=? 90))%N then [(c + 32)%N]
  else if (c =? 8490)%N then [107%N]
  else if (c =? 304)%N then [105%N; 775%N]
  else [c].

Definition lower (s : pystr) : pystr := concat (map lower_char s).

(** [s.rfind(c)] for a one-character [c], counting from index [i]:
    the index of the last occurrence, [-1] when there is none. *)
Fixpoint rfind_from (i : Z) (c : N) (s : pystr) : Z :=
  match s with
  | [] => (-1)%Z
  | x :: s' =>
      let r := rfind_from (i + 1) c s' in
      if (0 <=? r)%Z then r else if (x =? c)%N then i else (-1)%Z
  end.

Definition rfind (c : N) (s : pystr) : Z := rfind_from 0 c s.

Definition startswith (c : N) (s : pystr) : bool :=
  match s with
  | x :: _ => (x =? c)%N
  | [] => false
  end.

Definition endswith (c : N) (s : pystr) : bool := startswith c (rev s).

(** [x in xs] for a list of strings. *)
Definition str_in (x : pystr) (xs : list pystr) : bool :=
  existsb (fun y => bool_decide (x = y)) xs.

End Py.
Export Py.

(** ** [os.path] (POSIX flavour) *)

Module OsPath.

Definition sep : N := 47%N.      (* "/" *)
Definition extsep : N := 46%N.   (* "." *)

(** [genericpath._splitext]: the extension starts at the last dot of the
    last path component, unless that component has only leading dots before
    it. *)
Definition splitext (p : pystr) : pystr * pystr :=
  let sepIndex := rfind sep p in
  let dotIndex := rfind extsep p in
  if (sepIndex <? dotIndex)%Z then
    (* skip all leading dots *)
    let filenameIndex := Z.to_nat (sepIndex + 1) in
    let leading := take (Z.to_nat dotIndex - filenameIndex) (drop filenameIndex p) in
    if forallb (fun c => (c =? extsep)%N) leading then (p, [])
    else (take (Z.to_nat dotIndex) p, drop (Z.to_nat dotIndex) p)
  else (p, []).

(** [posixpath.join(a, b)] *)
Definition join (a b : pystr) : pystr :=
  if startswith sep b then b
  else if bool_decide (a = []) || endswith sep a then a ++ b
  else a ++ [sep] ++ b.

End OsPath.

(** ** Exceptions and results *)

(** A raised exception: whether its class derives from [Exception] (what an
    [except Exception] clause catches; [KeyboardInterrupt], [SystemExit] and
    [GeneratorExit] do not), and [str(e)]. *)
Record exn := Exn { is_Exception : bool; exn_str : pystr }.

Inductive result (A : Type) : Type :=
| Ret (a : A)
| Raise (e : exn).
Arguments Ret {A} a.
Arguments Raise {A} e.

(** ** The world of the process *)

Abbreviation bytes := (list byte).

(** [easyocr.Reader(["en"], gpu=False)] *)
Inductive Reader := EnglishCpuReader.

(** What the process does to the outside, in order. *)
Inductive event :=
| GcCollect                          (* gc.collect() *)
| ReaderInit                         (* easyocr.Reader(...) *)
| ReadText (file_path : pystr)       (* ocr_reader.readtext(file_path, detail=0) *)
| FitzOpen (file_path : pystr)       (* fitz.open(file_path) and its pages *)
| GenerateContent (prompt : pystr)   (* model.generate_content(prompt) *)
| LogException (msg : pystr).        (* logging.exception(msg) *)

Record world := World {
  fs : gmap pystr bytes;          (* the regular files, by path *)
  ocr_reader : option Reader;     (* the module global, None until first use *)
  trace : list event
}.

Definition log (ev : event) (w : world) : world :=
  {| fs := fs w; ocr_reader := ocr_reader w; trace := trace w ++ [ev] |}.

Definition set_fs (m : gmap pystr bytes) (w : world) : world :=
  {| fs := m; ocr_reader := ocr_reader w; trace := trace w |}.

Definition set_ocr_reader (r : Reader) (w : world) : world :=
  {| fs := fs w; ocr_reader := Some r; trace := trace w |}.

(** The response of the generative model: [hasattr(resp, "text")] and, when
    it holds, [resp.text]. *)
Inductive gemini_response :=
| WithText (text : pystr)
| WithoutText.

(** An uploaded part: the client's file name and the bytes of the stream. *)
Record upload := Upload { filename : pystr; stream : bytes }.

(** The outside capabilities.  Each outcome may depend on the whole world
    at the time of the call. *)
Record externals := Externals {
  (* werkzeug.utils.secure_filename *)
  secure_filename : pystr -> pystr;
  (* easyocr.Reader(["en"], gpu=False) *)
  easyocr_Reader : world -> result Reader;
  (* ocr_reader.readtext(file_path, detail=0): the recognised lines *)
  readtext : world -> pystr -> result (list pystr);
  (* fitz.open(file_path): the outcome of get_text("text") on each page *)
  fitz_open : world -> pystr -> result (list (result pystr));
  (* GenerativeModel("models/gemini-2.0-flash-lite").generate_content(prompt) *)
  generate_content : world -> pystr -> result gemini_response;
  (* f.save(path): the error it raises, if any *)
  save_error : world -> upload -> pystr -> option exn
}.

(** ** The monad: state over [world], with exceptions *)

Definition M (A : Type) : Type := world -> result A * world.

#[global] Instance M_ret : MRet M := fun A a w => (Ret a, w).

#[global] Instance M_bind : MBind M := fun A B f m w =>
  match m w with
  | (Ret a, w') => f a w'
  | (Raise e, w') => (Raise e, w')
  end.

Definition raise {A} (e : exn) : M A := fun w => (Raise e, w).

(** [try: body  except Exception as e: handler(e)] *)
Definition try_except {A} (body : M A) (handler : exn -> M A) : M A := fun w =>
  match body w with
  | (Ret a, w') => (Ret a, w')
  | (Raise e, w') => if is_Exception e then handler e w' else (Raise e, w')
  end.

(** [try: body  finally: final] *)
Definition try_finally {A} (body : M A) (final : M unit) : M A := fun w =>
  match body w with
  | (r, w') =>
      match final w' with
      | (Ret _, w'') => (r, w'')
      | (Raise e, w'') => (Raise e, w'')
      end
  end.

(** A call to the outside: the outcome is read off the world, the call is
    recorded. *)
Definition call {A} (ev : event) (outcome : world -> result A) : M A :=
  fun w => (outcome w, log ev w).

Definition gc_collect : M unit := call GcCollect (fun _ => Ret tt).

Definition logging_exception (msg : pystr) : M unit :=
  call (LogException msg) (fun _ => Ret tt).

(** ** Request data *)

(** A werkzeug [MultiDict]: the fields in the order received, a key once per
    value. *)
Abbreviation multidict V := (list (pystr * V)).

(** [key in d] *)
Definition md_contains {V} (key : pystr) (d : multidict V) : bool :=
  existsb (fun kv => bool_decide (kv.1 = key)) d.

(** [d.getlist(key)] *)
Definition md_getlist {V} (key : pystr) (d : multidict V) : list V :=
  map snd (filter (fun kv => kv.1 = key) d).

(** [d[key]]: the first value; a missing key raises [BadRequestKeyError]. *)
Definition md_getitem {V} (key : pystr) (d : multidict V) : M V :=
  match md_getlist key d with
  | v :: _ => mret v
  | [] => raise (Exn true key)
  end.

(** ** The program *)

Section Program.

Variable X : externals.

(** [UPLOAD_FOLDER = "./uploads"] *)
Definition UPLOAD_FOLDER : pystr := py "./uploads".

(** *** OCR extraction *)

Definition image_extensions : list pystr :=
  [py ".jpg"; py ".jpeg"; py ".png"; py ".bmp"; py ".tiff"].

(** [if ocr_reader is None: ocr_reader = easyocr.Reader(["en"], gpu=False)] *)
Definition lazy_reader : M Reader := fun w =>
  match ocr_reader w with
  | Some r => (Ret r, w)
  | None =>
      match easyocr_Reader X w with
      | Ret r => (Ret r, set_ocr_reader r (log ReaderInit w))
      | Raise e => (Raise e, log ReaderInit w)
      end
  end.

(** [for page in doc: text += page.get_text("text") + "\n"] *)
Fixpoint read_pages (pages : list (result pystr)) (text : pystr) : M pystr :=
  match pages with
  | [] => mret text
  | Ret page_text :: rest => read_pages rest (text ++ page_text ++ [NL])
  | Raise e :: _ => raise e
  end.

(** The body of the [try] block of [extract_text]: the value of [text]
    when the block completes. *)
Definition extract_text_try (file_path ext : pystr) (text : pystr) : M pystr :=
  if str_in ext image_extensions then
    _ ← lazy_reader;
    result ← call (ReadText file_path) (fun w => readtext X w file_path);
    mret (match result with
          | [] => py "[No text]"
          | _ => Py.join [NL] result
          end)
  else
    doc ← call (FitzOpen file_path) (fun w => fitz_open X w file_path);
    read_pages doc text.

(** [extract_text]: the [try] block either completes ([inl text], and the
    function goes on to [return text.strip()]) or its [except] clause
    returns the error string ([inr]); [gc.collect()] runs in both cases and
    when an exception passes through. *)
Definition extract_text (file_path : pystr) : M pystr :=
  let ext := lower (OsPath.splitext file_path).2 in
  let text := [] in
  r ← try_finally
        (try_except
           (text ← extract_text_try file_path ext text; mret (inl text))
           (fun e =>
              logging_exception (py "OCR/PDF error:");;
              mret (inr (py "[Error extracting text: " ++ exn_str e ++ py "]"))))
        gc_collect;
  match r with
  | inl text => mret (strip text)
  | inr early => mret early
  end.

(** *** Gemini summary *)

Definition summary_prompt (text : pystr) : pystr :=
  py "Summarize this medical report simply:" ++ [NL; NL] ++ take 4000 text.

(** The [try] block of [summarize_with_gemini]. *)
Definition summarize_try (text : pystr) : M pystr :=
  resp ← call (GenerateContent (summary_prompt text))
              (fun w => generate_content X w (summary_prompt text));
  mret (match resp with
        | WithText t => strip t
        | WithoutText => py "[No summary]"
        end).

Definition summarize_with_gemini (text : pystr) : M pystr :=
  if bool_decide (strip text = []) then mret (py "[No content to summarize]")
  else
    try_except
      (summarize_try text)
      (fun e =>
         logging_exception (py "Gemini API failed:");;
         mret (py "[Gemini failed: " ++ exn_str e ++ py "]")).

(** *** The route *)

Record request := Request {
  form : multidict pystr;
  files : multidict upload
}.

(** One value of [diagnostics]: [{"length": n}]. *)
Record diagnostic := Diagnostic { length_ : nat }.

(** The dict handed to [jsonify]. *)
Inductive json_body :=
| ErrorBody (error : pystr)
| PathBody (message summary : pystr)
| UploadBody (message : pystr) (diagnostics : gmap pystr diagnostic)
             (summary : pystr).

Record response := Response { body : json_body; status : nat }.

(** [os.path.exists(path)] *)
Definition os_path_exists (path : pystr) : M bool := fun w =>
  (Ret (bool_decide (is_Some (fs w !! path))), w).

(** [f.save(path)]: the stream is written under [path], replacing what was
    there; a save that raises is taken to leave the files as they were. *)
Definition save (f : upload) (path : pystr) : M unit := fun w =>
  match save_error X w f path with
  | Some e => (Raise e, w)
  | None => (Ret tt, set_fs (<[path := stream f]> (fs w)) w)
  end.

(** [os.remove(path)]; a missing file raises [FileNotFoundError]. *)
Definition os_remove (path : pystr) : M unit := fun w =>
  match fs w !! path with
  | Some _ => (Ret tt, set_fs (delete path (fs w)) w)
  | None =>
      (Raise (Exn true (py "[Errno 2] No such file or directory: '"
                        ++ path ++ py "'")), w)
  end.

(** The label-and-text section appended per file:
    [f"\n=== {filename} ===\n{text}\n"]. *)
Definition section_of (filename text : pystr) : pystr :=
  [NL] ++ py "=== " ++ filename ++ py " ===" ++ [NL] ++ text ++ [NL].

(** [for f in files: ...] with its two accumulators. *)
Fixpoint upload_loop (fl : list upload) (combined_text : pystr)
    (diagnostics : gmap pystr diagnostic)
    : M (pystr * gmap pystr diagnostic) :=
  match fl with
  | [] => mret (combined_text, diagnostics)
  | f :: rest =>
      let filename := secure_filename X (filename f) in
      let path := OsPath.join UPLOAD_FOLDER filename in
      save f path;;
      text ← extract_text path;
      let combined_text := combined_text ++ section_of filename text in
      let diagnostics :=
        <[filename := {| length_ := length text |}]> diagnostics in
      (* delete file after reading to save memory *)
      os_remove path;;
      upload_loop rest combined_text diagnostics
  end.

Definition parse (req : request) : M response :=
  gc_collect;;  (* clean before processing *)
  (* Case 1: Node sends file path *)
  if md_contains (py "file_path") (form req) then
    file_path ← md_getitem (py "file_path") (form req);
    exists_ ← os_path_exists file_path;
    if negb exists_ then
      mret {| body := ErrorBody (py "File not found: " ++ file_path);
              status := 400 |}
    else
      text ← extract_text file_path;
      summary ← summarize_with_gemini text;
      gc_collect;;
      mret {| body := PathBody (py "Parsed (from path)") summary;
              status := 200 |}
  (* Case 2: Direct upload *)
  else if negb (md_contains (py "files") (files req)) then
    mret {| body := ErrorBody (py "No files or file_path provided");
            status := 400 |}
  else
    let fl := md_getlist (py "files") (files req) in
    '(combined_text, diagnostics) ← upload_loop fl [] ∅;
    summary ← summarize_with_gemini combined_text;
    gc_collect;;
    mret {| body := UploadBody (py "Parsed successfully") diagnostics summary;
            status := 200 |}.

(** *** The per-file work of upload mode, read on its own

    What one turn of the loop does to one upload, leaving the accumulators
    aside: the sanitized name and the text extracted from the saved copy.
    [upload_loop] is compared with it below. *)
Definition process_upload (f : upload) : M (pystr * pystr) :=
  let filename := secure_filename X (filename f) in
  let path := OsPath.join UPLOAD_FOLDER filename in
  save f path;;
  text ← extract_text path;
  os_remove path;;
  mret (filename, text).

Fixpoint process_uploads (fl : list upload) : M (list (pystr * pystr)) :=
  match fl with
  | [] => mret []
  | f :: rest =>
      nt ← process_upload f;
      nts ← process_uploads rest;
      mret (nt :: nts)
  end.

(** [diagnostics[filename] = {"length": len(text)}], for each file in turn. *)
Definition record_all (d : gmap pystr diagnostic) (nts : list (pystr * pystr))
    : gmap pystr diagnostic :=
  foldl (fun d nt => <[nt.1 := {| length_ := length nt.2 |}]> d) d nts.

(** The path an upload is saved under. *)
Definition upload_path (f : upload) : pystr :=
  OsPath.join UPLOAD_FOLDER (secure_filename X (filename f)).

End Program.

(** The error strings of the two [except] clauses. *)
Definition extraction_error (e : exn) : pystr :=
  py "[Error extracting text: " ++ exn_str e ++ py "]".




(** The section of the combined buffer as the specification words it:
    [=== filename ===\n<text>\n]. *)
Definition spec_section (filename text : pystr) : pystr :=
  py "=== " ++ filename ++ py " ===" ++ [NL] ++ text ++ [NL].

(** ** Sample environments *)

Module Samples.

Definition w0 : world := {| fs := ∅; ocr_reader := None; trace := [] |}.

(** Everything works: the scan has no legible text, the PDF has one page. *)
Definition X_ok : externals := {|
  secure_filename := fun s => s;
  easyocr_Reader := fun _ => Ret EnglishCpuReader;
  readtext := fun _ _ => Ret [];
  fitz_open := fun _ _ => Ret [Ret (py "Hello")];
  generate_content := fun _ _ => Ret (WithText (py " A short summary. "));
  save_error := fun _ _ _ => None |}.

(** Ordinary failures: a corrupt file and an unreachable service. *)
Definition X_failing : externals := {|
  secure_filename := fun s => s;
  easyocr_Reader := fun _ => Ret EnglishCpuReader;
  readtext := fun _ _ => Raise (Exn true (py "cannot identify image file"));
  fitz_open := fun _ _ => Raise (Exn true (py "cannot open broken document"));
  generate_content := fun _ _ => Raise (Exn true (py "503 unavailable"));
  save_error := fun _ _ _ => None |}.



Definition scan_png : upload := Upload (py "scan.png") [x89; x50; x4e; x47].
Definition report_pdf : upload := Upload (py "report.pdf") [x25; x50; x44; x46].

Definition upload_request (fl : list upload) : request :=
  {| form := []; files := map (fun f => (py "files", f)) fl |}.

Definition path_request (file_path : pystr) : request :=
  {| form := [(py "file_path", file_path)]; files := [] |}.

Definition empty_request : request := {| form := []; files := [] |}.

End Samples.

(** ** Counting outside calls, and more sample environments *)

(** The requests to the remote service among some events. *)
Fixpoint gemini_calls (evs : list event) : nat :=
  match evs with
  | [] => 0
  | GenerateContent _ :: rest => S (gemini_calls rest)
  | _ :: rest => gemini_calls rest
  end.

(** The constructions of the OCR reader among some events. *)
Fixpoint reader_inits (evs : list event) : nat :=
  match evs with
  | [] => 0
  | ReaderInit :: rest => S (reader_inits rest)
  | _ :: rest => reader_inits rest
  end.

(** The text of a document whose pages all have a text layer:
    [text += page.get_text("text") + "\n"] over the pages. *)
Definition pages_text (texts : list pystr) : pystr :=
  concat (map (fun t => t ++ [NL]) texts).


(** From world [w] to world [w'] the trace grew by events holding [n]
    requests to the remote service. *)
Definition calls_between (w w' : world) (n : nat) : Prop :=
  ∃ evs, trace w' = trace w ++ evs ∧ gemini_calls evs = n.

Module MoreSamples.

(** A scan whose recognised lines are blank, and a document without
    pages. *)
Definition X_blank : externals := {|
  secure_filename := fun s => s;
  easyocr_Reader := fun _ => Ret EnglishCpuReader;
  readtext := fun _ _ => Ret [py " "; []];
  fitz_open := fun _ _ => Ret [];
  generate_content := fun _ _ => Ret WithoutText;
  save_error := fun _ _ _ => None |}.

(** The OCR model cannot be loaded. *)
Definition X_no_reader : externals := {|
  secure_filename := fun s => s;
  easyocr_Reader := fun _ => Raise (Exn true (py "model download failed"));
  readtext := fun _ _ => Ret [py "never read"];
  fitz_open := fun _ _ => Ret [Ret (py " Page one"); Ret (py "Page two ")];
  generate_content := fun _ _ => Ret (WithText (py "ok"));
  save_error := fun _ _ _ => None |}.

(** A document whose second page cannot be read. *)
Definition X_bad_page : externals := {|
  secure_filename := fun s => s;
  easyocr_Reader := fun _ => Ret EnglishCpuReader;
  readtext := fun _ _ => Ret [py "line"];
  fitz_open := fun _ _ =>
    Ret [Ret (py "Page one"); Raise (Exn true (py "bad xref")); Ret (py "Page three")];
  generate_content := fun _ _ => Ret (WithText (py "ok"));
  save_error := fun _ _ _ => None |}.



(** A server that holds one report and one earlier file of the upload
    directory. *)
Definition w_files : world := {|
  fs := {[ py "/data/report.pdf" := [x25; x50; x44; x46];
           py "./uploads/report.pdf" := [x00] ]};
  ocr_reader := None;
  trace := [] |}.

Definition w_loaded : world := {|
  fs := ∅; ocr_reader := Some EnglishCpuReader; trace := [] |}.

End MoreSamples.

(** ** Facts about strings *)

Section StringFacts.

Lemma lstrip_nil_iff (s : pystr) : lstrip s = [] ↔ forallb isspace s = true.
Proof.
  induction s as [|c s IH]; simpl; [done|].
  destruct (isspace c); simpl; [exact IH|].
  split; discriminate.
Qed.

(** What [lstrip] leaves is empty or starts with a character that is not
    white space. *)
Lemma lstrip_head (s : pystr) :
  lstrip s = [] ∨ ∃ c t, lstrip s = c :: t ∧ isspace c = false.
Proof.
  induction s as [|c s IH]; simpl; [by left|].
  destruct (isspace c) eqn:E; [exact IH|].
  right. by exists c, s.
Qed.

Lemma lstrip_fixed (c : N) (t : pystr) :
  isspace c = false → lstrip (c :: t) = c :: t.
Proof. intros E. simpl. by rewrite E. Qed.

Lemma forallb_rev {A} (p : A → bool) (l : list A) :
  forallb p (rev l) = forallb p l.
Proof.
  induction l as [|a l IH]; simpl; [done|].
  rewrite forallb_app, IH. simpl.
  rewrite andb_true_r. apply andb_comm.
Qed.

(** [not text.strip()] holds exactly for the strings made of white space. *)
Lemma strip_nil_iff (s : pystr) : strip s = [] ↔ forallb isspace s = true.
Proof.
  unfold strip, rstrip. split.
  - intros H. apply lstrip_nil_iff.
    assert (H1 : lstrip (rev (lstrip s)) = []).
    { destruct (lstrip (rev (lstrip s))); [done|].
      simpl in H. by destruct (rev l). }
    apply lstrip_nil_iff in H1. rewrite forallb_rev in H1.
    destruct (lstrip_head s) as [E|(c & t & E & Hc)]; [done|].
    rewrite E in H1. simpl in H1. by rewrite Hc in H1.
  - intros H. apply lstrip_nil_iff in H. by rewrite H.
Qed.

(** A string holding a character that is not white space does not strip
    to the empty string. *)
Lemma strip_non_blank (s : pystr) (c : N) :
  c ∈ s → isspace c = false → strip s ≠ [].
Proof.
  intros Hin Hc Hs. apply strip_nil_iff in Hs.
  rewrite forallb_forall in Hs.
  apply list_elem_of_In, Hs in Hin. congruence.
Qed.

(** A string with a non-blank first and last character is its own strip. *)
Lemma strip_fixed (a b : N) (s : pystr) :
  isspace a = false → isspace b = false →
  strip (a :: s ++ [b]) = a :: s ++ [b].
Proof.
  intros Ha Hb. unfold strip, rstrip.
  rewrite (lstrip_fixed a) by done.
  change (a :: s ++ [b]) with ((a :: s) ++ [b]).
  rewrite rev_app_distr. simpl rev at 2.
  change ([b] ++ rev (a :: s)) with (b :: rev (a :: s)).
  rewrite (lstrip_fixed b) by done.
  change (b :: rev (a :: s)) with ([b] ++ rev (a :: s)).
  by rewrite rev_app_distr, rev_involutive.
Qed.

End StringFacts.

(** ** Facts about the monad and the multi-dicts *)

Ltac unfold_monad :=
  unfold mbind, M_bind, mret, M_ret, raise, try_except, try_finally,
    gc_collect, logging_exception, call in *.

Lemma md_contains_getlist {V} (key : pystr) (d : multidict V) :
  md_contains key d = true ↔ md_getlist key d ≠ [].
Proof.
  unfold md_contains, md_getlist.
  induction d as [|[k v] d IH]; [done|].
  rewrite filter_cons. simpl.
  destruct (decide (k = key)) as [->|Hne].
  - rewrite bool_decide_eq_true_2 by done. simpl. done.
  - rewrite bool_decide_eq_false_2 by done. simpl. exact IH.
Qed.

(** ** The summarizer *)

Section Summarizer.

Variable X : externals.

(** The short-circuit of the summarizer. *)
Lemma summarize_blank (text : pystr) (w : world) :
  strip text = [] →
  summarize_with_gemini X text w = (Ret (py "[No content to summarize]"), w).
Proof.
  intros Hblank. unfold summarize_with_gemini.
  by rewrite bool_decide_eq_true_2.
Qed.

(** The summarizer on a text with something in it: one outside call, made
    with [summary_prompt text]. *)
Lemma summarize_non_blank (text : pystr) (w : world) :
  strip text ≠ [] →
  summarize_with_gemini X text w =
    match generate_content X w (summary_prompt text) with
    | Ret (WithText t) =>
        (Ret (strip t), log (GenerateContent (summary_prompt text)) w)
    | Ret WithoutText =>
        (Ret (py "[No summary]"), log (GenerateContent (summary_prompt text)) w)
    | Raise e =>
        if is_Exception e then
          (Ret (py "[Gemini failed: " ++ exn_str e ++ py "]"),
           log (LogException (py "Gemini API failed:"))
             (log (GenerateContent (summary_prompt text)) w))
        else (Raise e, log (GenerateContent (summary_prompt text)) w)
    end.
Proof.
  intros Hne. unfold summarize_with_gemini, summarize_try.
  rewrite bool_decide_eq_false_2 by done.
  unfold_monad.
  destruct (generate_content X w (summary_prompt text)) as [[t|]|e];
    [done|done|].
  by destruct (is_Exception e).
Qed.

(** The outside calls of one run of the summarizer: none, or one request
    followed perhaps by the log of its failure. *)
Lemma summarize_trace (text : pystr) (w : world) :
  ∃ evs, trace (summarize_with_gemini X text w).2 = trace w ++ evs ∧
    (strip text = [] → evs = []) ∧
    (strip text ≠ [] → ∃ rest, evs = GenerateContent (summary_prompt text) :: rest ∧
       ∀ p, GenerateContent p ∉ rest).
Proof.
  destruct (decide (strip text = [])) as [Hb|Hn].
  - exists []. rewrite summarize_blank by done. simpl.
    rewrite app_nil_r. done.
  - rewrite summarize_non_blank by done.
    destruct (generate_content X w (summary_prompt text)) as [[t|]|e].
    + exists [GenerateContent (summary_prompt text)]. simpl.
      split; [done|]. split; [done|]. intros _. eexists; split; [done|].
      intros p Hp. by apply elem_of_nil in Hp.
    + exists [GenerateContent (summary_prompt text)]. simpl.
      split; [done|]. split; [done|]. intros _. eexists; split; [done|].
      intros p Hp. by apply elem_of_nil in Hp.
    + destruct (is_Exception e).
      * exists [GenerateContent (summary_prompt text);
                LogException (py "Gemini API failed:")]. simpl.
        split; [by rewrite <- app_assoc|]. split; [done|].
        intros _. eexists; split; [done|].
        intros p Hp. apply list_elem_of_singleton in Hp. discriminate.
      * exists [GenerateContent (summary_prompt text)]. simpl.
        split; [done|]. split; [done|]. intros _. eexists; split; [done|].
        intros p Hp. by apply elem_of_nil in Hp.
Qed.

End Summarizer.

(** C3. A text that is empty or made of white space only gets the
    "nothing to summarize" sentinel, and the world, its trace of outside
    calls included, is left as it was: the remote service is not called. *)
Theorem summarize_blank_no_call (X : externals) (text : pystr) (w : world) :
  forallb isspace text = true →
  summarize_with_gemini X text w = (Ret (py "[No content to summarize]"), w).
Proof.
  intros Hblank. apply summarize_blank. by apply strip_nil_iff.
Qed.

Lemma summarize_blank_no_call_witness :
  forallb isspace (py "   ") = true ∧
  summarize_with_gemini Samples.X_ok (py "   ") Samples.w0 =
    (Ret (py "[No content to summarize]"), Samples.w0).
Proof.
  split; [reflexivity|].
  apply (summarize_blank_no_call Samples.X_ok (py "   ") Samples.w0).
  reflexivity.
Defined.

(** C2. For a text of more than 4000 characters, every request the
    summarizer sends is the fixed instruction followed by the first 4000
    characters of the text and nothing more; unless the text is blank, that
    request is indeed sent. *)
Theorem summarize_truncates (X : externals) (text : pystr) (w : world) :
  4000 < length text →
  ∃ evs, trace (summarize_with_gemini X text w).2 = trace w ++ evs ∧
    (∀ prompt, GenerateContent prompt ∈ evs →
       prompt = py "Summarize this medical report simply:" ++ [NL; NL]
                ++ take 4000 text ∧
       length (take 4000 text) = 4000) ∧
    (strip text ≠ [] → GenerateContent (summary_prompt text) ∈ evs).
Proof.
  intros Hlen.
  destruct (summarize_trace X text w) as (evs & Htr & Hblank & Hsent).
  exists evs. split; [done|].
  destruct (decide (strip text = [])) as [Hb|Hn].
  - rewrite (Hblank Hb). split; [|done].
    intros prompt Hin. by apply elem_of_nil in Hin.
  - destruct (Hsent Hn) as (rest & -> & Hrest). split.
    + intros prompt Hin. apply elem_of_cons in Hin as [Heq|Hin].
      * injection Heq as ->. split; [done|].
        rewrite length_take. lia.
      * by apply Hrest in Hin.
    + intros _. apply elem_of_cons. by left.
Qed.

Lemma summarize_truncates_witness :
  4000 < length (replicate 4001 97%N) ∧
  ∃ evs,
    trace (summarize_with_gemini Samples.X_ok (replicate 4001 97%N)
             Samples.w0).2 = trace Samples.w0 ++ evs ∧
    (∀ prompt, GenerateContent prompt ∈ evs →
       prompt = py "Summarize this medical report simply:" ++ [NL; NL]
                ++ take 4000 (replicate 4001 97%N) ∧
       length (take 4000 (replicate 4001 97%N)) = 4000) ∧
    (strip (replicate 4001 97%N) ≠ [] →
     GenerateContent (summary_prompt (replicate 4001 97%N)) ∈ evs).
Proof.
  split; [rewrite length_replicate; lia|].
  apply (summarize_truncates Samples.X_ok (replicate 4001 97%N) Samples.w0).
  rewrite length_replicate. lia.
Defined.

(** ** The extractor *)

Section Extractor.

Variable X : externals.

(** [extract_text] by the outcome of its [try] block. *)
Lemma extract_text_cases (file_path : pystr) (w : world) :
  extract_text X file_path w =
    match extract_text_try X file_path
            (lower (OsPath.splitext file_path).2) [] w with
    | (Ret text, w1) => (Ret (strip text), log GcCollect w1)
    | (Raise e, w1) =>
        if is_Exception e then
          (Ret (extraction_error e),
           log GcCollect (log (LogException (py "OCR/PDF error:")) w1))
        else (Raise e, log GcCollect w1)
    end.
Proof.
  unfold extract_text. unfold_monad.
  destruct (extract_text_try X file_path _ [] w) as [[text|e] w1]; [done|].
  by destruct (is_Exception e).
Qed.

Lemma lazy_reader_fs (w : world) : fs (lazy_reader X w).2 = fs w.
Proof.
  unfold lazy_reader. destruct (ocr_reader w); [done|].
  by destruct (easyocr_Reader X w).
Qed.

Lemma read_pages_world (pages : list (result pystr)) (text : pystr) (w : world) :
  (read_pages pages text w).2 = w.
Proof.
  revert text. induction pages as [|[t|e] pages IH]; intros text; simpl;
    [done|apply IH|done].
Qed.

Lemma extract_text_try_fs (file_path ext text : pystr) (w : world) :
  fs (extract_text_try X file_path ext text w).2 = fs w.
Proof.
  unfold extract_text_try. destruct (str_in ext image_extensions).
  - unfold_monad. pose proof (lazy_reader_fs w) as Hfs.
    destruct (lazy_reader X w) as [[r|e] w1]; simpl in *; [|done].
    by destruct (readtext X w1 file_path).
  - unfold_monad.
    destruct (fitz_open X w file_path) as [doc|e]; [|done].
    by rewrite read_pages_world.
Qed.

(** Extraction reads the file system and leaves it as it is. *)
Lemma extract_text_fs (file_path : pystr) (w : world) :
  fs (extract_text X file_path w).2 = fs w.
Proof.
  rewrite extract_text_cases.
  pose proof (extract_text_try_fs file_path
                (lower (OsPath.splitext file_path).2) [] w) as Hfs.
  destruct (extract_text_try X file_path _ [] w) as [[text|e] w1];
    simpl in *; [done|].
  by destruct (is_Exception e).
Qed.


(** The image branch when the reader is there and recognition returns. *)
Lemma extract_text_image (file_path : pystr) (w w1 : world) (r : Reader)
    (lines : list pystr) :
  str_in (lower (OsPath.splitext file_path).2) image_extensions = true →
  lazy_reader X w = (Ret r, w1) →
  readtext X w1 file_path = Ret lines →
  extract_text X file_path w =
    (Ret (strip (match lines with
                 | [] => py "[No text]"
                 | _ => Py.join [NL] lines
                 end)),
     log GcCollect (log (ReadText file_path) w1)).
Proof.
  intros Hext Hreader Hlines. rewrite extract_text_cases.
  unfold extract_text_try. rewrite Hext. unfold_monad.
  by rewrite Hreader, Hlines.
Qed.

End Extractor.

(** C4. On a path with a supported image extension, in any letter case,
    when the OCR reader is available and recognition yields no lines,
    [extract_text] returns the "no text" sentinel, which is not the empty
    string. *)
Theorem extract_text_no_lines (X : externals) (file_path : pystr)
    (w w1 : world) (r : Reader) :
  lower (OsPath.splitext file_path).2
    ∈ [py ".jpg"; py ".jpeg"; py ".png"; py ".bmp"; py ".tiff"] →
  lazy_reader X w = (Ret r, w1) →
  readtext X w1 file_path = Ret [] →
  (extract_text X file_path w).1 = Ret (py "[No text]") ∧
  (extract_text X file_path w).1 ≠ Ret [].
Proof.
  intros Hext Hreader Hlines.
  assert (Hin : str_in (lower (OsPath.splitext file_path).2) image_extensions
                = true).
  { unfold str_in. apply existsb_exists.
    exists (lower (OsPath.splitext file_path).2). split.
    - by apply list_elem_of_In.
    - by apply bool_decide_eq_true_2. }
  rewrite (extract_text_image X file_path w w1 r [] Hin Hreader Hlines).
  split; [reflexivity|discriminate].
Qed.

Lemma extract_text_no_lines_witness :
  lower (OsPath.splitext (py "./uploads/Scan.PNG")).2
    ∈ [py ".jpg"; py ".jpeg"; py ".png"; py ".bmp"; py ".tiff"] ∧
  (extract_text Samples.X_ok (py "./uploads/Scan.PNG") Samples.w0).1
    = Ret (py "[No text]") ∧
  (extract_text Samples.X_ok (py "./uploads/Scan.PNG") Samples.w0).1 ≠ Ret [].
Proof.
  assert (Hext : lower (OsPath.splitext (py "./uploads/Scan.PNG")).2
    ∈ [py ".jpg"; py ".jpeg"; py ".png"; py ".bmp"; py ".tiff"]).
  { vm_compute. do 2 apply list_elem_of_further. apply list_elem_of_here. }
  split; [exact Hext|].
  apply (extract_text_no_lines Samples.X_ok (py "./uploads/Scan.PNG")
           Samples.w0
           (set_ocr_reader EnglishCpuReader (log ReaderInit Samples.w0))
           EnglishCpuReader Hext); reflexivity.
Defined.

(** ** Failures inside the two functions *)

Section Failures.

Variable X : externals.

Lemma extract_text_caught (file_path : pystr) (w w1 : world) (e : exn) :
  extract_text_try X file_path (lower (OsPath.splitext file_path).2) [] w
    = (Raise e, w1) →
  is_Exception e = true →
  extract_text X file_path w =
    (Ret (extraction_error e),
     log GcCollect (log (LogException (py "OCR/PDF error:")) w1)).
Proof.
  intros Htry Hexc. rewrite extract_text_cases, Htry. by rewrite Hexc.
Qed.




Lemma summarize_fs (text : pystr) (w : world) :
  fs (summarize_with_gemini X text w).2 = fs w.
Proof.
  destruct (decide (strip text = [])) as [Hb|Hn].
  - by rewrite summarize_blank.
  - rewrite summarize_non_blank by done.
    destruct (generate_content X w (summary_prompt text)) as [[t|]|e'];
      [done|done|].
    by destruct (is_Exception e').
Qed.

End Failures.




(** ** The route: the two client errors *)

Section ClientErrors.

Variable X : externals.

Lemma md_getitem_first {V} (key : pystr) (d : multidict V) (v : V)
    (others : list V) (w : world) :
  md_getlist key d = v :: others → md_getitem key d w = (Ret v, w).
Proof. intros H. unfold md_getitem. by rewrite H. Qed.

Lemma parse_path_not_found (req : request) (w : world) (file_path : pystr)
    (others : list pystr) :
  md_getlist (py "file_path") (form req) = file_path :: others →
  fs w !! file_path = None →
  parse X req w =
    (Ret {| body := ErrorBody (py "File not found: " ++ file_path);
            status := 400 |},
     log GcCollect w).
Proof.
  intros Hget Hmissing. unfold parse.
  assert (Hin : md_contains (py "file_path") (form req) = true).
  { apply md_contains_getlist. by rewrite Hget. }
  rewrite Hin. unfold_monad.
  rewrite (md_getitem_first _ _ _ _ _ Hget).
  unfold os_path_exists. simpl. rewrite Hmissing.
  rewrite bool_decide_eq_false_2; [done|].
  by intros [? ?].
Qed.

Lemma parse_no_input (req : request) (w : world) :
  md_contains (py "file_path") (form req) = false →
  md_contains (py "files") (files req) = false →
  parse X req w =
    (Ret {| body := ErrorBody (py "No files or file_path provided");
            status := 400 |},
     log GcCollect w).
Proof.
  intros Hform Hfiles. unfold parse. by rewrite Hform, Hfiles.
Qed.

End ClientErrors.

(** C7. A path-mode request whose [file_path] names no file gets status 400
    and an ["error"] string that ends with the requested path; apart from
    the first [gc.collect()] nothing is done: no extraction, no
    summarization, no change to the files. *)
Theorem parse_missing_path_is_400 (X : externals) (req : request) (w : world)
    (file_path : pystr) (others : list pystr) :
  md_getlist (py "file_path") (form req) = file_path :: others →
  fs w !! file_path = None →
  ∃ error,
    parse X req w = (Ret {| body := ErrorBody error; status := 400 |},
                     log GcCollect w) ∧
    error = py "File not found: " ++ file_path.
Proof.
  intros Hget Hmissing. eexists. split; [|reflexivity].
  by apply (parse_path_not_found X req w file_path others).
Qed.

Lemma parse_missing_path_is_400_witness :
  ∃ error,
    parse Samples.X_ok (Samples.path_request (py "/tmp/none.pdf")) Samples.w0
      = (Ret {| body := ErrorBody error; status := 400 |},
         log GcCollect Samples.w0) ∧
    error = py "File not found: " ++ py "/tmp/none.pdf".
Proof.
  apply (parse_missing_path_is_400 Samples.X_ok
           (Samples.path_request (py "/tmp/none.pdf")) Samples.w0
           (py "/tmp/none.pdf") []); reflexivity.
Defined.

(** C8. A request with neither a [file_path] form field nor a [files]
    attachment gets status 400 and the message that no files or file_path
    were provided. *)
Theorem parse_without_input_is_400 (X : externals) (req : request) (w : world) :
  md_contains (py "file_path") (form req) = false →
  md_contains (py "files") (files req) = false →
  parse X req w =
    (Ret {| body := ErrorBody (py "No files or file_path provided");
            status := 400 |},
     log GcCollect w).
Proof. apply parse_no_input. Qed.

Lemma parse_without_input_is_400_witness :
  parse Samples.X_ok Samples.empty_request Samples.w0 =
    (Ret {| body := ErrorBody (py "No files or file_path provided");
            status := 400 |},
     log GcCollect Samples.w0).
Proof.
  apply (parse_without_input_is_400 Samples.X_ok Samples.empty_request
           Samples.w0); reflexivity.
Defined.

(** ** Upload mode: the loop *)

Section UploadLoop.

Variable X : externals.

(** One upload: saved, read, removed.  The removal cannot fail, since
    extraction leaves the saved copy where it is. *)
Lemma process_upload_cases (f : upload) (w : world) :
  process_upload X f w =
    match save_error X w f (upload_path X f) with
    | Some e => (Raise e, w)
    | None =>
        match extract_text X (upload_path X f)
                (set_fs (<[upload_path X f := stream f]> (fs w)) w) with
        | (Ret text, w2) =>
            (Ret (secure_filename X (filename f), text),
             set_fs (delete (upload_path X f) (fs w2)) w2)
        | (Raise e, w2) => (Raise e, w2)
        end
    end.
Proof.
  unfold process_upload, upload_path, save, os_remove. unfold_monad.
  set (path := OsPath.join UPLOAD_FOLDER (secure_filename X (filename f))).
  destruct (save_error X w f path) as [e|]; [done|].
  pose proof (extract_text_fs X path
                (set_fs (<[path := stream f]> (fs w)) w)) as Hfs.
  destruct (extract_text X path _) as [[text|e] w2]; [|done].
  simpl in Hfs. rewrite Hfs, lookup_insert_eq. done.
Qed.

(** The loop with its accumulators against the per-file reading. *)
Lemma upload_loop_spec (fl : list upload) (c : pystr)
    (d : gmap pystr diagnostic) (w : world) :
  upload_loop X fl c d w =
    match process_uploads X fl w with
    | (Ret nts, w') =>
        (Ret (c ++ concat (map (fun nt => section_of nt.1 nt.2) nts),
              record_all d nts), w')
    | (Raise e, w') => (Raise e, w')
    end.
Proof.
  revert c d w. induction fl as [|f fl IH]; intros c d w.
  - simpl. unfold_monad. by rewrite app_nil_r.
  - simpl. unfold process_upload. unfold_monad.
    destruct (save X f _ w) as [[[]|e] w1]; [|done].
    destruct (extract_text X _ w1) as [[text|e] w2]; [|done].
    destruct (os_remove _ w2) as [[[]|e] w3]; [|done].
    rewrite IH.
    destruct (process_uploads X fl w3) as [[nts|e] w4]; [|done].
    simpl. by rewrite <- app_assoc.
Qed.

(** The names come out in the order of the uploads, one per upload. *)
Lemma process_uploads_names (fl : list upload) (w w' : world)
    (nts : list (pystr * pystr)) :
  process_uploads X fl w = (Ret nts, w') →
  map fst nts = map (fun f => secure_filename X (filename f)) fl.
Proof.
  revert w w' nts. induction fl as [|f fl IH]; intros w w' nts.
  - simpl. unfold_monad. by intros [= <- _].
  - simpl. unfold_monad. rewrite process_upload_cases.
    destruct (save_error X w f _) as [e|]; [done|].
    destruct (extract_text X _ _) as [[text|e] w2]; [|done].
    destruct (process_uploads X fl _) as [[nts'|e] w3] eqn:Hrest; [|done].
    intros [= <- <-]. simpl. f_equal. by apply (IH _ _ _ Hrest).
Qed.



(** *** The diagnostics *)

Lemma record_all_snoc (d : gmap pystr diagnostic) (nts : list (pystr * pystr))
    (name text : pystr) :
  record_all d (nts ++ [(name, text)]) =
    <[name := {| length_ := length text |}]> (record_all d nts).
Proof. unfold record_all. by rewrite foldl_app. Qed.

(** The entry under a name is that of the last file recorded under it. *)
Lemma record_all_lookup_last (d : gmap pystr diagnostic)
    (nts : list (pystr * pystr)) (i : nat) (name text : pystr) :
  nts !! i = Some (name, text) →
  (∀ j text', i < j → nts !! j ≠ Some (name, text')) →
  record_all d nts !! name = Some {| length_ := length text |}.
Proof.
  revert d i. induction nts as [|[n t] nts IH]; intros d i Hi Hlast; [done|].
  destruct i as [|i]; simpl in Hi.
  - injection Hi as -> ->.
    assert (Hnot : name ∉ map fst nts).
    { intros Hin. apply list_elem_of_fmap in Hin as ([n' t'] & -> & Hin).
      apply list_elem_of_lookup in Hin as [j Hj].
      apply (Hlast (S j) t'); [lia|done]. }
    clear IH Hlast. simpl. revert d Hnot.
    induction nts as [|[n' t'] nts IH]; intros d Hnot; simpl.
    + apply lookup_insert_eq.
    + apply not_elem_of_cons in Hnot as [Hne Hnot]. simpl in Hne.
      rewrite (insert_insert_ne d) by done. by apply IH.
  - simpl. apply (IH _ i Hi). intros j text' Hlt.
    apply (Hlast (S j) text'). lia.
Qed.

Lemma record_all_size_le (d : gmap pystr diagnostic)
    (nts : list (pystr * pystr)) :
  size (record_all d nts) ≤ size d + length nts.
Proof.
  revert d. induction nts as [|[n t] nts IH]; intros d; simpl; [lia|].
  etrans; [apply IH|].
  destruct (d !! n) eqn:E.
  - rewrite map_size_insert_Some by done. lia.
  - rewrite map_size_insert_None by done. lia.
Qed.

(** A name already in the dict and recorded again adds no entry. *)
Lemma record_all_size_known (d : gmap pystr diagnostic)
    (nts : list (pystr * pystr)) (name : pystr) :
  is_Some (d !! name) → name ∈ map fst nts →
  size (record_all d nts) < size d + length nts.
Proof.
  revert d. induction nts as [|[n t] nts IH]; intros d Hd Hin; simpl.
  - by apply elem_of_nil in Hin.
  - simpl in Hin. apply elem_of_cons in Hin as [->|Hin].
    + pose proof (record_all_size_le
                    (<[n := {| length_ := length t |}]> d) nts) as Hle.
      destruct Hd as [x Hx].
      rewrite map_size_insert_Some in Hle by done. lia.
    + assert (Hd' : is_Some (<[n := {| length_ := length t |}]> d !! name)).
      { destruct (decide (n = name)) as [->|Hne].
        - rewrite lookup_insert_eq. by eexists.
        - by rewrite lookup_insert_ne. }
      pose proof (IH _ Hd' Hin) as Hlt.
      destruct (d !! n) eqn:E.
      * rewrite map_size_insert_Some in Hlt by done. lia.
      * rewrite map_size_insert_None in Hlt by done. lia.
Qed.

(** Two files recorded under one name: fewer entries than files. *)
Lemma record_all_size_duplicate (nts : list (pystr * pystr)) (i j : nat)
    (name ti tj : pystr) :
  i < j → nts !! i = Some (name, ti) → nts !! j = Some (name, tj) →
  size (record_all ∅ nts) < length nts.
Proof.
  assert (Hgen : ∀ d : gmap pystr diagnostic,
    i < j → nts !! i = Some (name, ti) → nts !! j = Some (name, tj) →
    size (record_all d nts) < size d + length nts).
  { revert i j. induction nts as [|[n t] nts IH]; intros i j d Hlt Hi Hj;
      [done|].
    destruct j as [|j]; [lia|]. simpl in Hj.
    destruct i as [|i]; simpl in Hi.
    - injection Hi as -> ->. simpl.
      assert (Hin : name ∈ map fst nts).
      { apply list_elem_of_fmap. exists (name, tj). split; [done|].
        apply list_elem_of_lookup. by exists j. }
      assert (Hd : is_Some (<[name := {| length_ := length ti |}]> d !! name)).
      { rewrite lookup_insert_eq. by eexists. }
      pose proof (record_all_size_known _ nts name Hd Hin) as H1.
      destruct (d !! name) eqn:E.
      + rewrite map_size_insert_Some in H1 by done. lia.
      + rewrite map_size_insert_None in H1 by done. lia.
    - simpl.
      assert (Hlt' : i < j) by lia.
      pose proof (IH i j (<[n := {| length_ := length t |}]> d) Hlt' Hi Hj)
        as H1.
      destruct (d !! n) eqn:E.
      + rewrite map_size_insert_Some in H1 by done. lia.
      + rewrite map_size_insert_None in H1 by done. lia. }
  intros Hlt Hi Hj. pose proof (Hgen ∅ Hlt Hi Hj) as H.
  by rewrite map_size_empty in H.
Qed.

End UploadLoop.

(** ** Upload mode: when the handler returns *)

Section UploadReturns.

Variable X : externals.






(** [parse] in upload mode, by the outcome of the loop and of the
    summarizer. *)
Lemma parse_upload_cases (req : request) (w : world) :
  md_contains (py "file_path") (form req) = false →
  md_contains (py "files") (files req) = true →
  parse X req w =
    match upload_loop X (md_getlist (py "files") (files req)) [] ∅
            (log GcCollect w) with
    | (Ret (c, d), w1) =>
        match summarize_with_gemini X c w1 with
        | (Ret summary, w2) =>
            (Ret {| body := UploadBody (py "Parsed successfully") d summary;
                    status := 200 |},
             log GcCollect w2)
        | (Raise e, w2) => (Raise e, w2)
        end
    | (Raise e, w1) => (Raise e, w1)
    end.
Proof.
  intros Hform Hfiles. unfold parse. rewrite Hform, Hfiles. simpl.
  unfold_monad.
  destruct (upload_loop X _ [] ∅ _) as [[[c d]|e] w1]; [|done].
  by destruct (summarize_with_gemini X c w1) as [[summary|e] w2].
Qed.



End UploadReturns.






(** ** Upload mode: the combined text and the diagnostics *)

Lemma lookup_map {A B} (f : A → B) (l : list A) (i : nat) :
  map f l !! i = f <$> l !! i.
Proof. change (map f l) with (f <$> l). apply list_lookup_fmap. Qed.

(** What the loop returns, file by file. *)
Lemma upload_loop_returns (X : externals) (fl : list upload) (w w' : world)
    (c : pystr) (d : gmap pystr diagnostic) :
  upload_loop X fl [] ∅ w = (Ret (c, d), w') →
  ∃ nts, process_uploads X fl w = (Ret nts, w') ∧
    map fst nts = map (fun f => secure_filename X (filename f)) fl ∧
    c = concat (map (fun nt => section_of nt.1 nt.2) nts) ∧
    d = record_all ∅ nts.
Proof.
  rewrite upload_loop_spec.
  destruct (process_uploads X fl w) as [[nts|e] w1] eqn:Hloop; [|done].
  intros [= <- <- <-]. exists nts. split; [done|].
  split; [|done]. by apply (process_uploads_names X fl w w1).
Qed.

(** C6, amended.  In upload mode the combined buffer handed to the
    summarizer is the concatenation, in the order of the files, of one
    section per file of the shape "\n=== filename ===\n<text>\n", a newline
    coming first; each file in turn records under its sanitized filename a
    diagnostics entry whose "length" is the length of that file's extracted
    text, so that the entry read under a name at the end is that of the
    last file recorded under it. *)
Theorem combined_text_and_diagnostics (X : externals) (fl : list upload)
    (w w' : world) (c : pystr) (d : gmap pystr diagnostic) :
  upload_loop X fl [] ∅ w = (Ret (c, d), w') →
  ∃ nts : list (pystr * pystr),
    process_uploads X fl w = (Ret nts, w') ∧
    map fst nts = map (fun f => secure_filename X (filename f)) fl ∧
    c = concat (map (fun nt => [NL] ++ py "=== " ++ nt.1 ++ py " ===" ++ [NL]
                               ++ nt.2 ++ [NL]) nts) ∧
    d = foldl (fun d nt => <[nt.1 := {| length_ := length nt.2 |}]> d) ∅ nts ∧
    (∀ i name text,
       nts !! i = Some (name, text) →
       (∀ j text', i < j → nts !! j ≠ Some (name, text')) →
       d !! name = Some {| length_ := length text |}).
Proof.
  intros Hloop.
  destruct (upload_loop_returns X fl w w' c d Hloop)
    as (nts & Hrun & Hnames & -> & ->).
  exists nts. repeat split; try done.
  intros i name text Hi Hlast.
  by apply (record_all_lookup_last ∅ nts i).
Qed.

Lemma combined_text_and_diagnostics_witness :
  ∃ c d w' nts,
    upload_loop Samples.X_ok [Samples.scan_png; Samples.report_pdf] [] ∅
      Samples.w0 = (Ret (c, d), w') ∧
    process_uploads Samples.X_ok [Samples.scan_png; Samples.report_pdf]
      Samples.w0 = (Ret nts, w') ∧
    nts = [(py "scan.png", py "[No text]"); (py "report.pdf", py "Hello")] ∧
    c = [NL] ++ py "=== scan.png ===" ++ [NL] ++ py "[No text]" ++ [NL]
        ++ [NL] ++ py "=== report.pdf ===" ++ [NL] ++ py "Hello" ++ [NL] ∧
    d !! py "scan.png" = Some {| length_ := 9 |} ∧
    d !! py "report.pdf" = Some {| length_ := 5 |}.
Proof.
  destruct (upload_loop Samples.X_ok [Samples.scan_png; Samples.report_pdf]
              [] ∅ Samples.w0) as [[[c d]|e] w'] eqn:Hloop;
    [|vm_compute in Hloop; discriminate].
  destruct (combined_text_and_diagnostics Samples.X_ok
              [Samples.scan_png; Samples.report_pdf] Samples.w0 w' c d Hloop)
    as (nts & Hrun & Hnames & Hc & Hd & Hlast).
  assert (Hnts : nts = [(py "scan.png", py "[No text]");
                        (py "report.pdf", py "Hello")]).
  { vm_compute in Hrun. by injection Hrun as <- _. }
  exists c, d, w', nts. split; [reflexivity|]. split; [exact Hrun|].
  split; [exact Hnts|]. subst nts. split; [exact Hc|]. split.
  - apply (Hlast 0 (py "scan.png") (py "[No text]")); [reflexivity|].
    intros [|[|j]] text' Hlt; [lia|discriminate|discriminate].
  - apply (Hlast 1 (py "report.pdf") (py "Hello")); [reflexivity|].
    intros [|[|j]] text' Hlt; [lia|lia|discriminate].
Defined.

(** C6 as first stated fails: the buffer of a one-file upload starts with a
    newline, so it is no concatenation of sections of the shape
    "=== filename ===\n<text>\n", whatever names and texts they hold. *)
Lemma combined_text_starts_with_newline :
  ∃ c d w',
    upload_loop Samples.X_ok [Samples.report_pdf] [] ∅ Samples.w0
      = (Ret (c, d), w') ∧
    c = [NL] ++ py "=== report.pdf ===" ++ [NL] ++ py "Hello" ++ [NL] ∧
    c ≠ spec_section (py "report.pdf") (py "Hello") ∧
    ∀ nts : list (pystr * pystr),
      c ≠ concat (map (fun nt => spec_section nt.1 nt.2) nts).
Proof.
  eexists _, _, _. split; [vm_compute; reflexivity|].
  split; [reflexivity|]. split; [discriminate|].
  intros [|[name text] nts]; discriminate.
Qed.

(** The first section of a non-empty upload brings an [=] sign. *)
Lemma sections_hold_equals_sign (nts : list (pystr * pystr)) :
  nts ≠ [] →
  N_of_ascii "=" ∈ concat (map (fun nt => section_of nt.1 nt.2) nts).
Proof.
  destruct nts as [|[name text] nts]; [done|]. intros _. simpl.
  apply list_elem_of_further, list_elem_of_here.
Qed.

(** C9. In upload mode the list of files is not empty, and the combined
    text handed to the summarizer holds the [=] signs of a section label,
    which are not white space; so the text does not strip to the empty
    string, the summarizer does not take its "no content" exit, and it
    sends its request to the remote service, whatever the extracted texts
    are. *)
Theorem upload_mode_reaches_remote_call (X : externals) (req : request)
    (w w' : world) (c : pystr) (d : gmap pystr diagnostic) :
  md_contains (py "files") (files req) = true →
  upload_loop X (md_getlist (py "files") (files req)) [] ∅ w
    = (Ret (c, d), w') →
  md_getlist (py "files") (files req) ≠ [] ∧
  N_of_ascii "=" ∈ c ∧ isspace (N_of_ascii "=") = false ∧
  strip c ≠ [] ∧
  ∃ evs, trace (summarize_with_gemini X c w').2
         = trace w' ++ GenerateContent (summary_prompt c) :: evs.
Proof.
  intros Hfiles Hloop.
  apply md_contains_getlist in Hfiles.
  destruct (upload_loop_returns X _ w w' c d Hloop)
    as (nts & Hrun & Hnames & -> & _).
  assert (Hnts : nts ≠ []).
  { intros ->.
    destruct (md_getlist (py "files") (files req)); [done|discriminate]. }
  pose proof (sections_hold_equals_sign nts Hnts) as Heq.
  assert (Hstrip : strip (concat (map (fun nt => section_of nt.1 nt.2) nts))
                   ≠ []).
  { by apply (strip_non_blank _ (N_of_ascii "=")). }
  repeat split; try done.
  destruct (summarize_trace X
              (concat (map (fun nt => section_of nt.1 nt.2) nts)) w')
    as (evs & Htrace & _ & Hsent).
  destruct (Hsent Hstrip) as (rest & -> & _). by exists rest.
Qed.

Lemma upload_mode_reaches_remote_call_witness :
  ∃ c d w' evs,
    upload_loop Samples.X_ok
      (md_getlist (py "files")
         (files (Samples.upload_request [Samples.scan_png]))) [] ∅ Samples.w0
      = (Ret (c, d), w') ∧
    strip c ≠ [] ∧
    trace (summarize_with_gemini Samples.X_ok c w').2
      = trace w' ++ GenerateContent (summary_prompt c) :: evs.
Proof.
  destruct (upload_loop Samples.X_ok
              (md_getlist (py "files")
                 (files (Samples.upload_request [Samples.scan_png])))
              [] ∅ Samples.w0) as [[[c d]|e] w'] eqn:Hloop;
    [|vm_compute in Hloop; discriminate].
  destruct (upload_mode_reaches_remote_call Samples.X_ok
              (Samples.upload_request [Samples.scan_png]) Samples.w0 w' c d
              eq_refl Hloop) as (_ & _ & _ & Hstrip & evs & Htrace).
  by exists c, d, w', evs.
Defined.

(** C10. When two uploads of one request sanitize to the same filename,
    the diagnostics hold fewer entries than there are files: the entry
    under a name is the one recorded by the last file of that name, while
    the combined buffer still has one section per file. *)
Theorem shared_filename_one_entry (X : externals) (fl : list upload)
    (w w' : world) (c : pystr) (d : gmap pystr diagnostic)
    (i j : nat) (fi fj : upload) :
  upload_loop X fl [] ∅ w = (Ret (c, d), w') →
  i < j → fl !! i = Some fi → fl !! j = Some fj →
  secure_filename X (filename fi) = secure_filename X (filename fj) →
  size d < length fl ∧
  ∃ nts : list (pystr * pystr),
    process_uploads X fl w = (Ret nts, w') ∧
    length nts = length fl ∧
    c = concat (map (fun nt => section_of nt.1 nt.2) nts) ∧
    (∀ k name text,
       nts !! k = Some (name, text) →
       (∀ l text', k < l → nts !! l ≠ Some (name, text')) →
       d !! name = Some {| length_ := length text |}).
Proof.
  intros Hloop Hlt Hi Hj Hsame.
  destruct (upload_loop_returns X fl w w' c d Hloop)
    as (nts & Hrun & Hnames & -> & ->).
  assert (Hlen : length nts = length fl).
  { by rewrite <- (length_map fst nts), Hnames, length_map. }
  assert (Hname : ∀ k f, fl !! k = Some f →
            ∃ text, nts !! k = Some (secure_filename X (filename f), text)).
  { intros k f Hk.
    assert (Hk' : map fst nts !! k = Some (secure_filename X (filename f))).
    { by rewrite Hnames, lookup_map, Hk. }
    rewrite lookup_map in Hk'.
    destruct (nts !! k) as [[n t]|]; [|done].
    injection Hk' as <-. by exists t. }
  destruct (Hname i fi Hi) as [ti Hti].
  destruct (Hname j fj Hj) as [tj Htj].
  rewrite <- Hsame in Htj.
  split.
  - rewrite <- Hlen.
    exact (record_all_size_duplicate nts i j _ ti tj Hlt Hti Htj).
  - exists nts. repeat split; try done.
    intros k name text Hk Hlast. by apply (record_all_lookup_last ∅ nts k).
Qed.

Lemma shared_filename_one_entry_witness :
  ∃ c d w',
    upload_loop Samples.X_ok [Samples.report_pdf; Samples.report_pdf] [] ∅
      Samples.w0 = (Ret (c, d), w') ∧
    size d < 2 ∧
    c = section_of (py "report.pdf") (py "Hello")
        ++ section_of (py "report.pdf") (py "Hello").
Proof.
  destruct (upload_loop Samples.X_ok [Samples.report_pdf; Samples.report_pdf]
              [] ∅ Samples.w0) as [[[c d]|e] w'] eqn:Hloop;
    [|vm_compute in Hloop; discriminate].
  destruct (shared_filename_one_entry Samples.X_ok
              [Samples.report_pdf; Samples.report_pdf] Samples.w0 w' c d
              0 1 Samples.report_pdf Samples.report_pdf Hloop)
    as (Hsize & nts & Hrun & Hlen & Hc & Hlast);
    [lia|reflexivity|reflexivity|reflexivity|].
  exists c, d, w'. split; [reflexivity|]. split; [exact Hsize|].
  vm_compute in Hrun. injection Hrun as <- _. by rewrite Hc.
Defined.

(** * Further properties of the three functions *)

(** ** More on [strip] *)

Section StripFacts.

Lemma lstrip_split (s : pystr) :
  ∃ ws, s = ws ++ lstrip s ∧ forallb isspace ws = true.
Proof.
  induction s as [|c s (ws & Hs & Hws)]; [by exists []|].
  simpl. destruct (isspace c) eqn:E.
  - exists (c :: ws). simpl. rewrite E, Hws. split; [by f_equal|done].
  - by exists [].
Qed.

(** A stripped string is empty, or begins and ends with characters that are
    not white space. *)
Lemma strip_shape (s : pystr) :
  strip s = [] ∨
  ∃ a t b u, strip s = a :: t ∧ isspace a = false ∧
             rev (strip s) = b :: u ∧ isspace b = false.
Proof.
  unfold strip, rstrip.
  destruct (lstrip_head s) as [->|(a & t & Hl & Ha)]; [by left|].
  rewrite Hl.
  destruct (lstrip_split (rev (a :: t))) as (ws & Hsplit & Hws).
  destruct (lstrip_head (rev (a :: t))) as [Hnil|(b & u & Hr & Hb)].
  - apply lstrip_nil_iff in Hnil. rewrite forallb_rev in Hnil.
    simpl in Hnil. by rewrite Ha in Hnil.
  - right. rewrite Hr in *. rewrite rev_involutive.
    assert (Hat : a :: t = rev (b :: u) ++ rev ws).
    { by rewrite <- rev_app_distr, <- Hsplit, rev_involutive. }
    destruct (rev (b :: u)) as [|a' t'] eqn:Hrev.
    + apply (f_equal (@rev N)) in Hrev. rewrite rev_involutive in Hrev. done.
    + injection Hat as <- _. by exists a, t', b, u.
Qed.

Lemma strip_idempotent (s : pystr) : strip (strip s) = strip s.
Proof.
  destruct (strip_shape s) as [->|(a & t & b & u & Hx & Ha & Hr & Hb)];
    [done|].
  unfold strip at 1. unfold rstrip.
  rewrite Hx, (lstrip_fixed a t Ha), <- Hx, Hr, (lstrip_fixed b u Hb), <- Hr.
  apply rev_involutive.
Qed.

Lemma join_blank (lines : list pystr) :
  (∀ l, l ∈ lines → forallb isspace l = true) →
  forallb isspace (Py.join [NL] lines) = true.
Proof.
  induction lines as [|l lines IH]; intros Hall; [done|].
  assert (Hl : forallb isspace l = true) by apply Hall, list_elem_of_here.
  assert (Hrest : forallb isspace (Py.join [NL] lines) = true).
  { apply IH. intros l' Hl'. by apply Hall, list_elem_of_further. }
  destruct lines as [|l' lines]; [done|].
  change (Py.join [NL] (l :: l' :: lines))
    with (l ++ [NL] ++ Py.join [NL] (l' :: lines)).
  by rewrite !forallb_app, Hl, Hrest.
Qed.

End StripFacts.

(** ** More on the extractor *)

Section ExtractorMore.

Variable X : externals.

Lemma read_pages_all (texts : list pystr) (text : pystr) (w : world) :
  read_pages (map Ret texts) text w = (Ret (text ++ pages_text texts), w).
Proof.
  revert text. induction texts as [|t texts IH]; intros text; simpl.
  - unfold_monad. by rewrite app_nil_r.
  - rewrite IH. unfold pages_text. simpl. by rewrite <- !app_assoc.
Qed.

Lemma read_pages_failing (before : list pystr) (after : list (result pystr))
    (e : exn) (text : pystr) (w : world) :
  read_pages (map Ret before ++ Raise e :: after) text w = (Raise e, w).
Proof.
  revert text. induction before as [|t before IH]; intros text; simpl;
    [done|apply IH].
Qed.

Lemma gemini_calls_app (evs1 evs2 : list event) :
  gemini_calls (evs1 ++ evs2) = gemini_calls evs1 + gemini_calls evs2.
Proof.
  induction evs1 as [|ev evs1 IH]; [done|].
  destruct ev; simpl; rewrite IH; lia.
Qed.

Lemma reader_inits_app (evs1 evs2 : list event) :
  reader_inits (evs1 ++ evs2) = reader_inits evs1 + reader_inits evs2.
Proof.
  induction evs1 as [|ev evs1 IH]; [done|].
  destruct ev; simpl; rewrite IH; lia.
Qed.

(** The outside calls of the [try] block: no request to the remote service,
    at most one construction of the reader, and none when the reader is
    there or the file is taken for a document. *)
Lemma extract_text_try_trace (file_path ext text : pystr) (w : world) :
  ∃ evs,
    trace (extract_text_try X file_path ext text w).2 = trace w ++ evs ∧
    gemini_calls evs = 0 ∧ reader_inits evs ≤ 1 ∧
    (is_Some (ocr_reader w) ∨ str_in ext image_extensions = false →
     reader_inits evs = 0 ∧
     ocr_reader (extract_text_try X file_path ext text w).2 = ocr_reader w).
Proof.
  unfold extract_text_try. destruct (str_in ext image_extensions).
  - unfold_monad. unfold lazy_reader.
    destruct (ocr_reader w) as [r|] eqn:Hr.
    + exists [ReadText file_path].
      destruct (readtext X w file_path); simpl; repeat split; auto.
    + destruct (easyocr_Reader X w) as [r|e].
      * exists [ReaderInit; ReadText file_path].
        destruct (readtext X _ file_path); simpl; rewrite <- app_assoc;
          (split; [done|]); (split; [done|]); (split; [lia|]);
          intros [[? [=]]|[=]].
      * exists [ReaderInit]. simpl.
        split; [done|]. split; [done|]. split; [lia|].
        intros [[? [=]]|[=]].
  - unfold_monad. exists [FitzOpen file_path].
    destruct (fitz_open X w file_path) as [doc|e]; simpl.
    + rewrite (surjective_pairing (read_pages doc text _)).
      rewrite read_pages_world. simpl. repeat split; auto.
    + repeat split; auto.
Qed.

Lemma extract_text_trace (file_path : pystr) (w : world) :
  ∃ evs,
    trace (extract_text X file_path w).2 = trace w ++ evs ∧
    gemini_calls evs = 0 ∧ reader_inits evs ≤ 1 ∧
    last evs = Some GcCollect ∧
    (is_Some (ocr_reader w) ∨
     str_in (lower (OsPath.splitext file_path).2) image_extensions = false →
     reader_inits evs = 0 ∧
     ocr_reader (extract_text X file_path w).2 = ocr_reader w).
Proof.
  rewrite extract_text_cases.
  destruct (extract_text_try_trace file_path
              (lower (OsPath.splitext file_path).2) [] w)
    as (evs & Htrace & Hgem & Hinit & Hkeep).
  assert (Hgen : ∀ (r : result pystr) (w1 : world) (mid : list event),
    trace w1 = trace w ++ evs ++ mid →
    gemini_calls mid = 0 → reader_inits mid = 0 →
    (is_Some (ocr_reader w) ∨
     str_in (lower (OsPath.splitext file_path).2) image_extensions = false →
     ocr_reader w1 = ocr_reader w) →
    ∃ evs',
      trace (r, log GcCollect w1).2 = trace w ++ evs' ∧
      gemini_calls evs' = 0 ∧ reader_inits evs' ≤ 1 ∧
      last evs' = Some GcCollect ∧
      (is_Some (ocr_reader w) ∨
       str_in (lower (OsPath.splitext file_path).2) image_extensions = false →
       reader_inits evs' = 0 ∧ ocr_reader (r, log GcCollect w1).2 = ocr_reader w)).
  { intros r w1 mid Hw1 Hg Hi Hocr. exists ((evs ++ mid) ++ [GcCollect]).
    simpl. rewrite Hw1, last_snoc, !gemini_calls_app, !reader_inits_app.
    simpl. rewrite <- !app_assoc. repeat split; try lia; try done.
    - destruct (Hkeep H) as [-> _]. lia.
    - by apply Hocr. }
  destruct (extract_text_try X file_path _ [] w) as [[text|e] w1];
    cbn [fst snd] in *.
  - apply (Hgen (Ret (strip text)) w1 []); [by rewrite app_nil_r|done|done|].
    intros H. by destruct (Hkeep H).
  - destruct (is_Exception e).
    + apply (Hgen (Ret (extraction_error e))
               (log (LogException (py "OCR/PDF error:")) w1)
               [LogException (py "OCR/PDF error:")]); [|done|done|].
      * simpl. by rewrite Htrace, <- app_assoc.
      * intros H. by destruct (Hkeep H).
    + apply (Hgen (Raise e) w1 []); [by rewrite app_nil_r|done|done|].
      intros H. by destruct (Hkeep H).
Qed.

End ExtractorMore.

(** X1. A file that is not taken for an image and whose pages all have a
    text layer: the result is the texts of the pages in page order, each
    followed by a newline, trimmed at both ends. *)
Theorem extract_text_document_pages (X : externals) (file_path : pystr)
    (w : world) (texts : list pystr) :
  str_in (lower (OsPath.splitext file_path).2) image_extensions = false →
  fitz_open X w file_path = Ret (map Ret texts) →
  extract_text X file_path w =
    (Ret (strip (concat (map (fun t => t ++ [NL]) texts))),
     log GcCollect (log (FitzOpen file_path) w)).
Proof.
  intros Hext Hdoc. rewrite extract_text_cases.
  unfold extract_text_try. rewrite Hext. unfold_monad.
  rewrite Hdoc, read_pages_all. done.
Qed.

Lemma extract_text_document_pages_witness :
  extract_text MoreSamples.X_no_reader (py "notes.pdf") Samples.w0 =
    (Ret (strip (concat (map (fun t => t ++ [NL])
                           [py " Page one"; py "Page two "]))),
     log GcCollect (log (FitzOpen (py "notes.pdf")) Samples.w0)) ∧
  strip (concat (map (fun t => t ++ [NL]) [py " Page one"; py "Page two "]))
    = py "Page one" ++ [NL] ++ py "Page two".
Proof.
  split; [|reflexivity].
  apply (extract_text_document_pages MoreSamples.X_no_reader
           (py "notes.pdf") Samples.w0 [py " Page one"; py "Page two "]);
    reflexivity.
Defined.

(** X2. When a page of a document cannot be read, the text of the pages
    before it is dropped: the result is the error string of that page's
    exception and nothing else. *)
Theorem extract_text_failing_page (X : externals) (file_path : pystr)
    (w : world) (before : list pystr) (after : list (result pystr))
    (e : exn) :
  str_in (lower (OsPath.splitext file_path).2) image_extensions = false →
  fitz_open X w file_path = Ret (map Ret before ++ Raise e :: after) →
  is_Exception e = true →
  extract_text X file_path w =
    (Ret (py "[Error extracting text: " ++ exn_str e ++ py "]"),
     log GcCollect
       (log (LogException (py "OCR/PDF error:"))
          (log (FitzOpen file_path) w))).
Proof.
  intros Hext Hdoc Hexc. rewrite extract_text_cases.
  unfold extract_text_try. rewrite Hext. unfold_monad.
  rewrite Hdoc, read_pages_failing. by rewrite Hexc.
Qed.

Lemma extract_text_failing_page_witness :
  extract_text MoreSamples.X_bad_page (py "broken.pdf") Samples.w0 =
    (Ret (py "[Error extracting text: bad xref]"),
     log GcCollect
       (log (LogException (py "OCR/PDF error:"))
          (log (FitzOpen (py "broken.pdf")) Samples.w0))).
Proof.
  apply (extract_text_failing_page MoreSamples.X_bad_page (py "broken.pdf")
           Samples.w0 [py "Page one"] [Ret (py "Page three")]
           (Exn true (py "bad xref"))); reflexivity.
Defined.

(** X3. The "no text" sentinel is for an empty list of lines only: when
    recognition returns lines and all of them are blank, [extract_text]
    returns the empty string. *)
Theorem extract_text_blank_lines (X : externals) (file_path : pystr)
    (w w1 : world) (r : Reader) (lines : list pystr) :
  str_in (lower (OsPath.splitext file_path).2) image_extensions = true →
  lazy_reader X w = (Ret r, w1) →
  readtext X w1 file_path = Ret lines →
  lines ≠ [] →
  (∀ l, l ∈ lines → forallb isspace l = true) →
  (extract_text X file_path w).1 = Ret [].
Proof.
  intros Hext Hreader Hlines Hne Hblank.
  rewrite (extract_text_image X file_path w w1 r lines Hext Hreader Hlines).
  destruct lines as [|l lines]; [done|]. cbn [fst]. f_equal.
  apply strip_nil_iff. exact (join_blank (l :: lines) Hblank).
Qed.

Lemma extract_text_blank_lines_witness :
  (extract_text MoreSamples.X_blank (py "empty.jpeg") Samples.w0).1 = Ret [].
Proof.
  apply (extract_text_blank_lines MoreSamples.X_blank (py "empty.jpeg")
           Samples.w0
           (set_ocr_reader EnglishCpuReader (log ReaderInit Samples.w0))
           EnglishCpuReader [py " "; []]); try reflexivity.
  - discriminate.
  - intros l [->|[->|[]%elem_of_nil]%elem_of_cons]%elem_of_cons; reflexivity.
Defined.

(** X4. Whatever [extract_text] returns, the extracted text or the error
    string, has no white space at either end: it is its own [strip]. *)
Theorem extract_text_result_stripped (X : externals) (file_path : pystr)
    (w : world) (text : pystr) :
  (extract_text X file_path w).1 = Ret text → strip text = text.
Proof.
  rewrite extract_text_cases.
  destruct (extract_text_try X file_path _ [] w) as [[t|e] w1].
  - intros [= <-]. apply strip_idempotent.
  - destruct (is_Exception e); [|done]. intros [= <-].
    apply (strip_fixed (N_of_ascii "[") (N_of_ascii "]")
             (py "Error extracting text: " ++ exn_str e)); reflexivity.
Qed.

Lemma extract_text_result_stripped_witness :
  (extract_text MoreSamples.X_no_reader (py "notes.pdf") Samples.w0).1
    = Ret (py "Page one" ++ [NL] ++ py "Page two") ∧
  strip (py "Page one" ++ [NL] ++ py "Page two")
    = py "Page one" ++ [NL] ++ py "Page two".
Proof.
  split; [reflexivity|].
  apply (extract_text_result_stripped MoreSamples.X_no_reader
           (py "notes.pdf") Samples.w0). reflexivity.
Defined.

(** X5. With the reader already constructed, or on a file taken for a
    document, [extract_text] constructs no reader and leaves [ocr_reader]
    as it is. *)
Theorem extract_text_reuses_reader (X : externals) (file_path : pystr)
    (w : world) :
  is_Some (ocr_reader w) ∨
  str_in (lower (OsPath.splitext file_path).2) image_extensions = false →
  ocr_reader (extract_text X file_path w).2 = ocr_reader w ∧
  ∃ evs, trace (extract_text X file_path w).2 = trace w ++ evs ∧
         reader_inits evs = 0.
Proof.
  intros H.
  destruct (extract_text_trace X file_path w)
    as (evs & Htrace & _ & _ & _ & Hkeep).
  destruct (Hkeep H) as [Hinits Hocr]. split; [done|]. by exists evs.
Qed.

Lemma extract_text_reuses_reader_witness :
  ocr_reader (extract_text Samples.X_ok (py "scan.png")
                MoreSamples.w_loaded).2 = Some EnglishCpuReader ∧
  ∃ evs, trace (extract_text Samples.X_ok (py "scan.png")
                  MoreSamples.w_loaded).2 = trace MoreSamples.w_loaded ++ evs ∧
         reader_inits evs = 0.
Proof.
  apply (extract_text_reuses_reader Samples.X_ok (py "scan.png")
           MoreSamples.w_loaded).
  left. by exists EnglishCpuReader.
Defined.

(** X6. When the reader cannot be constructed, recognition is not
    attempted, the error string of the construction is returned and
    [ocr_reader] stays [None], so that the next image tries again. *)
Theorem extract_text_reader_failure (X : externals) (file_path : pystr)
    (w : world) (e : exn) :
  str_in (lower (OsPath.splitext file_path).2) image_extensions = true →
  ocr_reader w = None →
  easyocr_Reader X w = Raise e →
  is_Exception e = true →
  extract_text X file_path w =
    (Ret (py "[Error extracting text: " ++ exn_str e ++ py "]"),
     log GcCollect
       (log (LogException (py "OCR/PDF error:")) (log ReaderInit w))) ∧
  ocr_reader (extract_text X file_path w).2 = None.
Proof.
  intros Hext Hnone Hinit Hexc.
  assert (Heq : extract_text X file_path w =
    (Ret (py "[Error extracting text: " ++ exn_str e ++ py "]"),
     log GcCollect
       (log (LogException (py "OCR/PDF error:")) (log ReaderInit w)))).
  { rewrite extract_text_cases. unfold extract_text_try. rewrite Hext.
    unfold_monad. unfold lazy_reader. rewrite Hnone, Hinit.
    by rewrite Hexc. }
  split; [done|]. by rewrite Heq.
Qed.

Lemma extract_text_reader_failure_witness :
  extract_text MoreSamples.X_no_reader (py "scan.bmp") Samples.w0 =
    (Ret (py "[Error extracting text: model download failed]"),
     log GcCollect
       (log (LogException (py "OCR/PDF error:"))
          (log ReaderInit Samples.w0))) ∧
  ocr_reader (extract_text MoreSamples.X_no_reader (py "scan.bmp")
                Samples.w0).2 = None.
Proof.
  apply (extract_text_reader_failure MoreSamples.X_no_reader (py "scan.bmp")
           Samples.w0 (Exn true (py "model download failed")));
    reflexivity.
Defined.

(** X7. The reader is constructed once: after an image on which the
    construction succeeded, whatever recognition then did, [ocr_reader] is
    set, and no later call of [extract_text] constructs a reader. *)
Theorem extract_text_loads_reader_once (X : externals) (file_path : pystr)
    (w : world) (r : Reader) :
  str_in (lower (OsPath.splitext file_path).2) image_extensions = true →
  ocr_reader w = None →
  easyocr_Reader X w = Ret r →
  ocr_reader (extract_text X file_path w).2 = Some r ∧
  ∀ next_path, ∃ evs,
    trace (extract_text X next_path (extract_text X file_path w).2).2
      = trace (extract_text X file_path w).2 ++ evs ∧
    reader_inits evs = 0.
Proof.
  intros Hext Hnone Hinit.
  assert (Hset : ocr_reader (extract_text X file_path w).2 = Some r).
  { rewrite extract_text_cases. unfold extract_text_try. rewrite Hext.
    unfold_monad. unfold lazy_reader. rewrite Hnone, Hinit.
    destruct (readtext X _ file_path) as [lines|e]; [done|].
    by destruct (is_Exception e). }
  split; [done|]. intros next_path.
  destruct (extract_text_trace X next_path (extract_text X file_path w).2)
    as (evs & Htrace & _ & _ & _ & Hkeep).
  exists evs. split; [done|]. apply Hkeep. left. rewrite Hset. by eexists.
Qed.

Lemma extract_text_loads_reader_once_witness :
  ocr_reader (extract_text Samples.X_failing (py "scan.tiff")
                Samples.w0).2 = Some EnglishCpuReader ∧
  ∀ next_path, ∃ evs,
    trace (extract_text Samples.X_failing next_path
             (extract_text Samples.X_failing (py "scan.tiff")
                Samples.w0).2).2
      = trace (extract_text Samples.X_failing (py "scan.tiff")
                 Samples.w0).2 ++ evs ∧
    reader_inits evs = 0.
Proof.
  apply (extract_text_loads_reader_once Samples.X_failing (py "scan.tiff")
           Samples.w0 EnglishCpuReader); reflexivity.
Defined.


(** ** More on the summarizer *)

Section SummarizerMore.

Variable X : externals.

Lemma calls_between_refl (w : world) : calls_between w w 0.
Proof. exists []. by rewrite app_nil_r. Qed.

Lemma calls_between_trans (w w1 w2 : world) (a b : nat) :
  calls_between w w1 a → calls_between w1 w2 b → calls_between w w2 (a + b).
Proof.
  intros (evs1 & H1 & <-) (evs2 & H2 & <-). exists (evs1 ++ evs2).
  by rewrite H2, H1, <- app_assoc, gemini_calls_app.
Qed.

Lemma calls_between_gc (w : world) : calls_between w (log GcCollect w) 0.
Proof. by exists [GcCollect]. Qed.

Lemma calls_between_same_trace (w w' : world) :
  trace w' = trace w → calls_between w w' 0.
Proof. intros H. exists []. by rewrite H, app_nil_r. Qed.

Lemma extract_text_calls (file_path : pystr) (w : world) :
  calls_between w (extract_text X file_path w).2 0.
Proof.
  destruct (extract_text_trace X file_path w) as (evs & Htrace & Hgem & _).
  by exists evs.
Qed.

(** One run of the summarizer: no request for a blank text, one request
    otherwise, also when the request fails. *)
Lemma summarize_calls (text : pystr) (w : world) :
  calls_between w (summarize_with_gemini X text w).2
    (if bool_decide (strip text = []) then 0 else 1).
Proof.
  destruct (decide (strip text = [])) as [Hb|Hn].
  - rewrite bool_decide_eq_true_2, summarize_blank by done.
    apply calls_between_refl.
  - rewrite bool_decide_eq_false_2, summarize_non_blank by done.
    destruct (generate_content X w (summary_prompt text)) as [[t|]|e].
    + by exists [GenerateContent (summary_prompt text)].
    + by exists [GenerateContent (summary_prompt text)].
    + destruct (is_Exception e).
      * exists [GenerateContent (summary_prompt text);
                LogException (py "Gemini API failed:")].
        simpl. by rewrite <- app_assoc.
      * by exists [GenerateContent (summary_prompt text)].
Qed.

Lemma summarize_ocr_reader (text : pystr) (w : world) :
  ocr_reader (summarize_with_gemini X text w).2 = ocr_reader w.
Proof.
  destruct (decide (strip text = [])) as [Hb|Hn].
  - by rewrite summarize_blank.
  - rewrite summarize_non_blank by done.
    destruct (generate_content X w (summary_prompt text)) as [[t|]|e];
      [done|done|].
    by destruct (is_Exception e).
Qed.

End SummarizerMore.

(** X9. A text of at most 4000 characters that is not blank is sent whole
    and as it is, white space at its ends included: the request is the
    instruction, two newlines and the text. *)
Theorem summarize_sends_short_text_whole (X : externals) (text : pystr)
    (w : world) :
  length text ≤ 4000 →
  strip text ≠ [] →
  ∃ rest,
    trace (summarize_with_gemini X text w).2 =
      trace w
      ++ GenerateContent
           (py "Summarize this medical report simply:" ++ [NL; NL] ++ text)
         :: rest.
Proof.
  intros Hlen Hne.
  destruct (summarize_trace X text w) as (evs & Htrace & _ & Hsent).
  destruct (Hsent Hne) as (rest & -> & _). exists rest.
  rewrite Htrace. unfold summary_prompt. by rewrite take_ge.
Qed.

Lemma summarize_sends_short_text_whole_witness :
  ∃ rest,
    trace (summarize_with_gemini Samples.X_ok (py "  Hb 9.1 g/dL ")
             Samples.w0).2 =
      trace Samples.w0
      ++ GenerateContent
           (py "Summarize this medical report simply:" ++ [NL; NL]
            ++ py "  Hb 9.1 g/dL ")
         :: rest.
Proof.
  apply (summarize_sends_short_text_whole Samples.X_ok (py "  Hb 9.1 g/dL ")
           Samples.w0); [vm_compute; lia|discriminate].
Defined.

(** X10. One run of the summarizer sends at most one request, exactly one
    when the text is not blank, with no second attempt after a failure; it
    changes neither the files nor the OCR reader. *)
Theorem summarize_single_request (X : externals) (text : pystr) (w : world) :
  fs (summarize_with_gemini X text w).2 = fs w ∧
  ocr_reader (summarize_with_gemini X text w).2 = ocr_reader w ∧
  ∃ evs, trace (summarize_with_gemini X text w).2 = trace w ++ evs ∧
    gemini_calls evs = if bool_decide (strip text = []) then 0 else 1.
Proof.
  split; [apply summarize_fs|]. split; [apply summarize_ocr_reader|].
  apply summarize_calls.
Qed.

(** X11. Whatever the summarizer returns, a sentinel, the trimmed answer of
    the service or the failure string, has no white space at either end. *)
Theorem summarize_result_stripped (X : externals) (text : pystr) (w : world)
    (summary : pystr) :
  (summarize_with_gemini X text w).1 = Ret summary → strip summary = summary.
Proof.
  destruct (decide (strip text = [])) as [Hb|Hn].
  - rewrite summarize_blank by done. by intros [= <-].
  - rewrite summarize_non_blank by done.
    destruct (generate_content X w (summary_prompt text)) as [[t|]|e].
    + intros [= <-]. apply strip_idempotent.
    + by intros [= <-].
    + destruct (is_Exception e); [|done]. intros [= <-].
      apply (strip_fixed (N_of_ascii "[") (N_of_ascii "]")
               (py "Gemini failed: " ++ exn_str e)); reflexivity.
Qed.

Lemma summarize_result_stripped_witness :
  (summarize_with_gemini Samples.X_ok (py "Hello") Samples.w0).1
    = Ret (py "A short summary.") ∧
  strip (py "A short summary.") = py "A short summary.".
Proof.
  split; [reflexivity|].
  apply (summarize_result_stripped Samples.X_ok (py "Hello") Samples.w0).
  reflexivity.
Defined.

(** ** More on the route *)

Section RouteMore.

Variable X : externals.

(** [parse] in path mode, by the outcome of its steps. *)
Lemma parse_path_cases (req : request) (w : world) (file_path : pystr)
    (others : list pystr) :
  md_getlist (py "file_path") (form req) = file_path :: others →
  parse X req w =
    if bool_decide (is_Some (fs w !! file_path)) then
      match extract_text X file_path (log GcCollect w) with
      | (Ret text, w1) =>
          match summarize_with_gemini X text w1 with
          | (Ret summary, w2) =>
              (Ret {| body := PathBody (py "Parsed (from path)") summary;
                      status := 200 |},
               log GcCollect w2)
          | (Raise e, w2) => (Raise e, w2)
          end
      | (Raise e, w1) => (Raise e, w1)
      end
    else
      (Ret {| body := ErrorBody (py "File not found: " ++ file_path);
              status := 400 |},
       log GcCollect w).
Proof.
  intros Hget. unfold parse.
  assert (Hin : md_contains (py "file_path") (form req) = true).
  { apply md_contains_getlist. by rewrite Hget. }
  rewrite Hin. unfold_monad.
  rewrite (md_getitem_first _ _ _ _ _ Hget).
  unfold os_path_exists. cbn [fs log].
  destruct (bool_decide (is_Some (fs w !! file_path))); [|done].
  cbn [negb].
  destruct (extract_text X file_path (log GcCollect w)) as [[text|e] w1];
    [|done].
  by destruct (summarize_with_gemini X text w1) as [[summary|e] w2].
Qed.

Lemma path_mode_first_value (req : request) :
  md_contains (py "file_path") (form req) = true →
  ∃ file_path others,
    md_getlist (py "file_path") (form req) = file_path :: others.
Proof.
  intros H. apply md_contains_getlist in H.
  destruct (md_getlist (py "file_path") (form req)) as [|p others]; [done|].
  by exists p, others.
Qed.


(** *** The files of an upload-mode request, on every exit *)





Lemma process_uploads_calls (fl : list upload) (w : world) :
  calls_between w (process_uploads X fl w).2 0.
Proof.
  revert w. induction fl as [|f fl IH]; intros w.
  - apply calls_between_refl.
  - simpl. unfold_monad. rewrite process_upload_cases.
    destruct (save_error X w f _) as [e'|]; [apply calls_between_refl|].
    pose proof (extract_text_calls X (upload_path X f)
                  (set_fs (<[upload_path X f := stream f]> (fs w)) w)) as H1.
    destruct (extract_text X _ _) as [[text|e'] w2]; cbn [snd] in H1.
    + pose proof (IH (set_fs (delete (upload_path X f) (fs w2)) w2)) as H2.
      destruct (process_uploads X fl _) as [[nts|e'] w3]; cbn [snd] in *;
        apply (calls_between_trans w w2 w3 0 0); try done;
        apply (calls_between_trans w2 _ w3 0 0); try done;
        by apply calls_between_same_trace.
    + exact H1.
Qed.

(** *** The names in the diagnostics *)

Lemma record_all_is_Some (d : gmap pystr diagnostic)
    (nts : list (pystr * pystr)) (name : pystr) :
  is_Some (record_all d nts !! name) ↔
  is_Some (d !! name) ∨ name ∈ map fst nts.
Proof.
  revert d. induction nts as [|[n t] nts IH]; intros d; simpl.
  - split; [by left|]. intros [H|H]; [done|]. by apply elem_of_nil in H.
  - rewrite IH. destruct (decide (n = name)) as [->|Hne].
    + rewrite lookup_insert_eq. split.
      * intros _. right. apply list_elem_of_here.
      * intros _. left. by eexists.
    + rewrite lookup_insert_ne by done. split.
      * intros [H|H]; [by left|]. right. by apply list_elem_of_further.
      * intros [H|H]; [by left|].
        apply elem_of_cons in H as [H|H]; [done|]. by right.
Qed.

End RouteMore.






(** X14. Path mode on a file whose extracted text is empty: the summary is
    the "no content" sentinel, with status 200, and the remote service is
    not called. *)
Theorem parse_path_blank_text (X : externals) (req : request) (w : world)
    (file_path : pystr) (others : list pystr) :
  md_getlist (py "file_path") (form req) = file_path :: others →
  is_Some (fs w !! file_path) →
  (extract_text X file_path (log GcCollect w)).1 = Ret [] →
  (parse X req w).1 =
    Ret {| body := PathBody (py "Parsed (from path)")
                     (py "[No content to summarize]");
           status := 200 |} ∧
  ∃ evs, trace (parse X req w).2 = trace w ++ evs ∧ gemini_calls evs = 0.
Proof.
  intros Hget Hexists Hblank.
  rewrite (parse_path_cases X req w file_path others Hget).
  rewrite bool_decide_eq_true_2 by done.
  pose proof (extract_text_calls X file_path (log GcCollect w)) as Hcalls.
  destruct (extract_text X file_path (log GcCollect w)) as [[text|e] w1];
    [|done].
  injection Hblank as ->. rewrite summarize_blank by done.
  split; [done|].
  apply (calls_between_trans w (log GcCollect w) (log GcCollect w1) 0 0);
    [apply calls_between_gc|].
  apply (calls_between_trans _ w1 (log GcCollect w1) 0 0);
    [exact Hcalls|apply calls_between_gc].
Qed.

Lemma parse_path_blank_text_witness :
  (parse MoreSamples.X_blank (Samples.path_request (py "/data/report.pdf"))
     MoreSamples.w_files).1 =
    Ret {| body := PathBody (py "Parsed (from path)")
                     (py "[No content to summarize]");
           status := 200 |} ∧
  ∃ evs,
    trace (parse MoreSamples.X_blank
             (Samples.path_request (py "/data/report.pdf"))
             MoreSamples.w_files).2 = trace MoreSamples.w_files ++ evs ∧
    gemini_calls evs = 0.
Proof.
  apply (parse_path_blank_text MoreSamples.X_blank
           (Samples.path_request (py "/data/report.pdf")) MoreSamples.w_files
           (py "/data/report.pdf") []);
    [reflexivity|vm_compute; by eexists|reflexivity].
Defined.






(** The success answer of upload mode. *)
Lemma parse_upload_answer (X : externals) (req : request) (w w' : world)
    (resp : response) :
  md_contains (py "file_path") (form req) = false →
  md_contains (py "files") (files req) = true →
  parse X req w = (Ret resp, w') →
  status resp = 200 ∧
  ∃ d summary,
    body resp = UploadBody (py "Parsed successfully") d summary ∧
    ∀ name, is_Some (d !! name) ↔
            name ∈ map (fun f => secure_filename X (filename f))
                       (md_getlist (py "files") (files req)).
Proof.
  intros Hform Hfiles. rewrite parse_upload_cases by done.
  destruct (upload_loop X _ [] ∅ (log GcCollect w)) as [[[c d]|e] w1]
    eqn:Hloop; [|done].
  destruct (upload_loop_returns X _ _ _ _ _ Hloop)
    as (nts & _ & Hnames & _ & ->).
  destruct (summarize_with_gemini X c w1) as [[summary|e] w2]; [|done].
  intros [= <- _]. split; [done|]. exists (record_all ∅ nts), summary.
  split; [done|]. intros name.
  rewrite record_all_is_Some, lookup_empty, Hnames.
  split; [|by right]. intros [[? [=]]|H]; done.
Qed.


(** X17. The success answer of upload mode: status 200, the message
    "Parsed successfully", and diagnostics whose keys are exactly the
    sanitized names of the uploaded files. *)
Theorem parse_upload_response (X : externals) (req : request) (w w' : world)
    (resp : response) :
  md_contains (py "file_path") (form req) = false →
  md_contains (py "files") (files req) = true →
  parse X req w = (Ret resp, w') →
  status resp = 200 ∧
  ∃ d summary,
    body resp = UploadBody (py "Parsed successfully") d summary ∧
    ∀ name, is_Some (d !! name) ↔
            name ∈ map (fun f => secure_filename X (filename f))
                       (md_getlist (py "files") (files req)).
Proof. apply parse_upload_answer. Qed.

Lemma parse_upload_response_witness :
  ∃ d summary,
    (parse Samples.X_failing
       (Samples.upload_request [Samples.scan_png; Samples.report_pdf])
       Samples.w0).1 =
      Ret {| body := UploadBody (py "Parsed successfully") d summary;
             status := 200 |} ∧
    ∀ name, is_Some (d !! name) ↔
            name ∈ [py "scan.png"; py "report.pdf"].
Proof.
  destruct (parse Samples.X_failing
              (Samples.upload_request [Samples.scan_png; Samples.report_pdf])
              Samples.w0) as [[resp|e] w'] eqn:Hparse;
    [|vm_compute in Hparse; discriminate].
  destruct (parse_upload_response Samples.X_failing
              (Samples.upload_request [Samples.scan_png; Samples.report_pdf])
              Samples.w0 w' resp eq_refl eq_refl Hparse)
    as (Hstatus & d & summary & Hbody & Hkeys).
  exists d, summary. split; [|exact Hkeys].
  destruct resp as [b st]. cbn [fst body status] in *. by subst.
Defined.

Lemma summarize_calls_le (X : externals) (text : pystr) (w : world) :
  ∃ n, n ≤ 1 ∧ calls_between w (summarize_with_gemini X text w).2 n.
Proof.
  exists (if bool_decide (strip text = []) then 0 else 1).
  split; [case_bool_decide; lia|apply summarize_calls].
Qed.

(** From the first [gc.collect()] on. *)
Lemma calls_after_gc (w w' : world) (n : nat) :
  calls_between (log GcCollect w) w' n →
  ∃ evs, trace w' = trace w ++ evs ∧ gemini_calls evs = n ∧
         head evs = Some GcCollect.
Proof.
  intros (evs & Htrace & Hn). exists (GcCollect :: evs).
  split; [|done]. rewrite Htrace. simpl. by rewrite <- app_assoc.
Qed.

(** After extraction or the loop: the summarizer, then [gc.collect()]. *)
Lemma summarize_then_gc_calls (X : externals) (text : pystr)
    (w w1 : world) :
  calls_between w w1 0 →
  ∃ n, n ≤ 1 ∧
    calls_between w
      (match summarize_with_gemini X text w1 with
       | (Ret summary, w2) => log GcCollect w2
       | (Raise e, w2) => w2
       end) n.
Proof.
  intros H1. destruct (summarize_calls_le X text w1) as (n & Hn & H2).
  exists n. split; [done|].
  destruct (summarize_with_gemini X text w1) as [[summary|e] w2];
    cbn [snd] in H2.
  - replace n with (0 + (n + 0)) by lia.
    apply (calls_between_trans w w1 _ 0 (n + 0) H1).
    apply (calls_between_trans w1 w2 _ n 0 H2). apply calls_between_gc.
  - apply (calls_between_trans w w1 w2 0 n H1 H2).
Qed.

(** X18. A request makes at most one call to the remote service, whatever
    its mode, the number of uploads and the outcome, and it starts with
    [gc.collect()]. *)
Theorem parse_single_remote_call (X : externals) (req : request) (w : world) :
  ∃ evs, trace (parse X req w).2 = trace w ++ evs ∧
    gemini_calls evs ≤ 1 ∧ head evs = Some GcCollect.
Proof.
  assert (H : ∃ n, n ≤ 1 ∧ calls_between (log GcCollect w) (parse X req w).2 n).
  { destruct (md_contains (py "file_path") (form req)) eqn:Hform.
    - destruct (path_mode_first_value req Hform) as (p & others & Hget).
      rewrite (parse_path_cases X req w p others Hget).
      destruct (bool_decide (is_Some (fs w !! p))).
      + pose proof (extract_text_calls X p (log GcCollect w)) as H1.
        destruct (extract_text X p (log GcCollect w)) as [[text|e] w1];
          cbn [snd] in H1.
        * destruct (summarize_then_gc_calls X text _ w1 H1) as (n & Hn & H2).
          exists n. split; [done|].
          by destruct (summarize_with_gemini X text w1) as [[summary|e] w2].
        * exists 0. split; [lia|exact H1].
      + exists 0. split; [lia|apply calls_between_refl].
    - destruct (md_contains (py "files") (files req)) eqn:Hfiles.
      + rewrite parse_upload_cases, upload_loop_spec by done.
        pose proof (process_uploads_calls X
                      (md_getlist (py "files") (files req))
                      (log GcCollect w)) as H1.
        destruct (process_uploads X _ (log GcCollect w)) as [[nts|e] w1];
          cbn [snd] in H1.
        * destruct (summarize_then_gc_calls X
                      ([] ++ concat (map (fun nt => section_of nt.1 nt.2) nts))
                      _ w1 H1) as (n & Hn & H2).
          exists n. split; [done|].
          by destruct (summarize_with_gemini X _ w1) as [[summary|e] w2].
        * exists 0. split; [lia|exact H1].
      + rewrite parse_no_input by done.
        exists 0. split; [lia|apply calls_between_refl]. }
  destruct H as (n & Hn & H).
  destruct (calls_after_gc w _ n H) as (evs & Htrace & <- & Hhead).
  by exists evs.
Qed.

(** X19. The only answers with a status other than 200 are the two input
    errors, with status 400: a [file_path] that names no file, or neither
    [file_path] nor [files].  They are given before anything else is done;
    no failure of extraction or summarization changes the status. *)
Theorem parse_error_status (X : externals) (req : request) (w w' : world)
    (resp : response) :
  parse X req w = (Ret resp, w') →
  status resp ≠ 200 →
  status resp = 400 ∧ w' = log GcCollect w ∧
  ((∃ file_path others,
      md_getlist (py "file_path") (form req) = file_path :: others ∧
      fs w !! file_path = None ∧
      body resp = ErrorBody (py "File not found: " ++ file_path)) ∨
   (md_contains (py "file_path") (form req) = false ∧
    md_contains (py "files") (files req) = false ∧
    body resp = ErrorBody (py "No files or file_path provided"))).
Proof.
  destruct (md_contains (py "file_path") (form req)) eqn:Hform.
  - destruct (path_mode_first_value req Hform) as (p & others & Hget).
    rewrite (parse_path_cases X req w p others Hget).
    destruct (decide (is_Some (fs w !! p))) as [Hsome|Hnone].
    + rewrite bool_decide_eq_true_2 by done.
      destruct (extract_text X p (log GcCollect w)) as [[text|e] w1]; [|done].
      destruct (summarize_with_gemini X text w1) as [[summary|e] w2];
        [|done].
      by intros [= <- _].
    + rewrite bool_decide_eq_false_2 by done. intros [= <- <-] _.
      split; [done|]. split; [done|]. left. exists p, others.
      split; [done|]. split; [|done].
      destruct (fs w !! p) eqn:E; [|done]. destruct Hnone. by eexists.
  - destruct (md_contains (py "files") (files req)) eqn:Hfiles.
    + intros Hparse Hstatus.
      destruct (parse_upload_answer X req w w' resp Hform Hfiles Hparse)
        as [H200 _]. done.
    + rewrite parse_no_input by done. intros [= <- <-] _.
      split; [done|]. split; [done|]. by right.
Qed.

Lemma parse_error_status_witness :
  status {| body := ErrorBody (py "File not found: " ++ py "/tmp/none.pdf");
            status := 400 |} = 400 ∧
  log GcCollect MoreSamples.w_files = log GcCollect MoreSamples.w_files ∧
  ((∃ file_path others,
      md_getlist (py "file_path")
        (form (Samples.path_request (py "/tmp/none.pdf")))
        = file_path :: others ∧
      fs MoreSamples.w_files !! file_path = None ∧
      body {| body := ErrorBody (py "File not found: " ++ py "/tmp/none.pdf");
              status := 400 |}
        = ErrorBody (py "File not found: " ++ file_path)) ∨
   (md_contains (py "file_path")
      (form (Samples.path_request (py "/tmp/none.pdf"))) = false ∧
    md_contains (py "files")
      (files (Samples.path_request (py "/tmp/none.pdf"))) = false ∧
    body {| body := ErrorBody (py "File not found: " ++ py "/tmp/none.pdf");
            status := 400 |}
      = ErrorBody (py "No files or file_path provided"))).
Proof.
  apply (parse_error_status Samples.X_ok
           (Samples.path_request (py "/tmp/none.pdf")) MoreSamples.w_files
           (log GcCollect MoreSamples.w_files)
           {| body := ErrorBody (py "File not found: " ++ py "/tmp/none.pdf");
              status := 400 |});
    [reflexivity|discriminate].
Defined.



(** X21. An upload whose extraction fails with an [Exception] does not
    stop the loop: its section and its diagnostics entry are made from the
    error string (25 characters and the message), its saved copy is
    removed, and the loop goes on with the next upload. *)
Theorem upload_loop_extraction_failure (X : externals) (f : upload)
    (rest : list upload) (c : pystr) (d : gmap pystr diagnostic)
    (w w1 : world) (e : exn) :
  save_error X w f (upload_path X f) = None →
  extract_text_try X (upload_path X f)
    (lower (OsPath.splitext (upload_path X f)).2) []
    (set_fs (<[upload_path X f := stream f]> (fs w)) w) = (Raise e, w1) →
  is_Exception e = true →
  upload_loop X (f :: rest) c d w =
    upload_loop X rest
      (c ++ [NL] ++ py "=== " ++ secure_filename X (filename f) ++ py " ==="
         ++ [NL] ++ py "[Error extracting text: " ++ exn_str e ++ py "]"
         ++ [NL])
      (<[secure_filename X (filename f) :=
           {| length_ := 25 + length (exn_str e) |}]> d)
      (set_fs (delete (upload_path X f) (fs w))
         (log GcCollect (log (LogException (py "OCR/PDF error:")) w1))).
Proof.
  intros Hsave Htry Hexc.
  pose proof (extract_text_try_fs X (upload_path X f)
                (lower (OsPath.splitext (upload_path X f)).2) []
                (set_fs (<[upload_path X f := stream f]> (fs w)) w)) as Hfs.
  rewrite Htry in Hfs. cbn [snd fs set_fs] in Hfs.
  cbn [upload_loop]. unfold_monad. unfold save, os_remove.
  fold (upload_path X f). rewrite Hsave.
  rewrite (extract_text_caught X _ _ w1 e Htry Hexc).
  cbn [fs log]. rewrite Hfs, lookup_insert_eq, delete_insert_eq.
  unfold section_of, extraction_error.
  rewrite !length_app.
  change (length (py "[Error extracting text: ")) with 24.
  change (length (py "]")) with 1.
  replace (24 + (length (exn_str e) + 1)) with (25 + length (exn_str e))
    by lia.
  by rewrite <- !app_assoc.
Qed.

Lemma upload_loop_extraction_failure_witness :
  upload_loop Samples.X_failing [Samples.scan_png; Samples.report_pdf] [] ∅
    Samples.w0 =
  upload_loop Samples.X_failing [Samples.report_pdf]
    ([] ++ [NL] ++ py "=== " ++ py "scan.png" ++ py " ===" ++ [NL]
       ++ py "[Error extracting text: " ++ py "cannot identify image file"
       ++ py "]" ++ [NL])
    (<[py "scan.png" := {| length_ := 25 + 26 |}]> ∅)
    (set_fs (delete (py "./uploads/scan.png") (fs Samples.w0))
       (log GcCollect
          (log (LogException (py "OCR/PDF error:"))
             (log (ReadText (py "./uploads/scan.png"))
                (set_ocr_reader EnglishCpuReader
                   (log ReaderInit
                      (set_fs (<[py "./uploads/scan.png"
                                 := stream Samples.scan_png]>
                                 (fs Samples.w0)) Samples.w0))))))).
Proof.
  apply (upload_loop_extraction_failure Samples.X_failing Samples.scan_png
           [Samples.report_pdf] [] ∅ Samples.w0 _
           (Exn true (py "cannot identify image file")));
    reflexivity.
Defined.

(** ** Which branch a path takes *)

Section PathFacts.

Local Open Scope Z_scope.

Lemma rfind_from_range (i : Z) (c : N) (s : pystr) :
  0 ≤ i →
  rfind_from i c s = -1 ∨
  i ≤ rfind_from i c s < i + Z.of_nat (length s).
Proof.
  revert i. induction s as [|x s IH]; intros i Hi; [by left|].
  simpl rfind_from.
  destruct (IH (i + 1) ltac:(lia)) as [->|Hr].
  - simpl. destruct (x =? c)%N; [right|by left].
    simpl length. lia.
  - destruct (0 <=? rfind_from (i + 1) c s) eqn:E.
    + right. simpl length. lia.
    + apply Z.leb_gt in E. lia.
Qed.

Lemma rfind_from_absent (i : Z) (c : N) (s : pystr) :
  c ∉ s → rfind_from i c s = -1.
Proof.
  revert i. induction s as [|x s IH]; intros i Hnot; [done|].
  apply not_elem_of_cons in Hnot as [Hne Hnot].
  simpl. rewrite (IH _ Hnot). simpl.
  destruct (N.eqb_spec x c); [congruence|done].
Qed.

Lemma rfind_from_app (i : Z) (c : N) (s1 s2 : pystr) :
  0 ≤ i →
  rfind_from i c (s1 ++ s2) =
    if 0 <=? rfind_from (i + Z.of_nat (length s1)) c s2
    then rfind_from (i + Z.of_nat (length s1)) c s2
    else rfind_from i c s1.
Proof.
  revert i. induction s1 as [|x s1 IH]; intros i Hi.
  - simpl. rewrite Z.add_0_r.
    destruct (rfind_from_range i c s2 Hi) as [->|Hr]; [done|].
    destruct (0 <=? rfind_from i c s2) eqn:E; [done|].
    apply Z.leb_gt in E. lia.
  - simpl app. simpl rfind_from. rewrite (IH (i + 1)) by lia.
    simpl length.
    replace (i + 1 + Z.of_nat (length s1))
      with (i + Z.of_nat (S (length s1))) by lia.
    destruct (0 <=? rfind_from (i + Z.of_nat (S (length s1))) c s2) eqn:E;
      [by rewrite E|done].
Qed.




(** A name without a dot has no extension. *)
Lemma splitext_no_extension (dir base : pystr) :
  dir = [] ∨ (∃ d, dir = d ++ [OsPath.sep]) →
  OsPath.extsep ∉ base →
  OsPath.splitext (dir ++ base) = (dir ++ base, []).
Proof.
  intros Hdir Hbase. unfold OsPath.splitext.
  assert (Hle : rfind OsPath.extsep (dir ++ base)
                ≤ rfind OsPath.sep (dir ++ base)).
  { unfold rfind. rewrite (rfind_from_app 0 OsPath.extsep) by lia.
    rewrite (rfind_from_absent _ _ base Hbase).
    change (0 <=? -1) with false. cbv iota.
    destruct Hdir as [->|[d ->]].
    - simpl. destruct (rfind_from_range 0 OsPath.sep base); lia.
    - rewrite (rfind_from_app 0 OsPath.extsep d) by lia.
      rewrite <- app_assoc. simpl app.
      rewrite (rfind_from_app 0 OsPath.sep d) by lia.
      rewrite !Z.add_0_l.
      change (rfind_from (Z.of_nat (length d)) OsPath.extsep [OsPath.sep])
        with (-1).
      change (0 <=? -1) with false. cbv iota.
      cbn [rfind_from]. rewrite N.eqb_refl.
      pose proof (rfind_from_range 0 OsPath.extsep d) as Hd.
      pose proof (rfind_from_range (Z.of_nat (length d) + 1)
                    OsPath.sep base) as Hb.
      destruct (0 <=? rfind_from (Z.of_nat (length d) + 1) OsPath.sep base)
        eqn:E1.
      + rewrite E1. apply Z.leb_le in E1. lia.
      + destruct (0 <=? Z.of_nat (length d)) eqn:E2.
        * lia.
        * apply Z.leb_gt in E2. lia. }
  destruct (rfind OsPath.sep (dir ++ base) <? rfind OsPath.extsep (dir ++ base))
    eqn:E; [|done].
  apply Z.ltb_lt in E. lia.
Qed.

End PathFacts.

(** X22. A path whose last component has no dot, whatever dots its
    directory part has, is taken for a document: [extract_text] opens it
    with PyMuPDF first, and neither uses nor constructs the OCR reader. *)
Theorem extract_text_without_extension (X : externals) (dir base : pystr)
    (w : world) :
  dir = [] ∨ (∃ d, dir = d ++ [OsPath.sep]) →
  OsPath.extsep ∉ base →
  ocr_reader (extract_text X (dir ++ base) w).2 = ocr_reader w ∧
  ∃ rest, trace (extract_text X (dir ++ base) w).2
          = trace w ++ FitzOpen (dir ++ base) :: rest ∧
          (∀ q, ReadText q ∉ rest) ∧ ReaderInit ∉ rest.
Proof.
  intros Hdir Hbase. rewrite extract_text_cases.
  unfold extract_text_try. rewrite (splitext_no_extension dir base Hdir Hbase).
  change (str_in (lower (dir ++ base, []).2) image_extensions) with false.
  cbv iota. unfold_monad.
  assert (Hno : ∀ evs : list event,
    evs = [GcCollect] ∨ evs = [LogException (py "OCR/PDF error:"); GcCollect] →
    (∀ q, ReadText q ∉ evs) ∧ ReaderInit ∉ evs).
  { intros evs [-> | ->]; (split; [intros q Hin|intros Hin]);
      repeat (apply elem_of_cons in Hin as [Hin|Hin]; [discriminate|]);
      by apply elem_of_nil in Hin. }
  destruct (fitz_open X w (dir ++ base)) as [doc|e].
  - rewrite (surjective_pairing (read_pages doc [] _)), read_pages_world.
    destruct (read_pages doc [] _).1 as [text|e].
    + split; [done|]. exists [GcCollect]. cbn [snd trace log].
      rewrite <- app_assoc. split; [done|]. apply Hno. by left.
    + destruct (is_Exception e).
      * split; [done|]. exists [LogException (py "OCR/PDF error:"); GcCollect].
        cbn [snd trace log]. rewrite <- !app_assoc.
        split; [done|]. apply Hno. by right.
      * split; [done|]. exists [GcCollect]. cbn [snd trace log].
        rewrite <- app_assoc. split; [done|]. apply Hno. by left.
  - destruct (is_Exception e).
    + split; [done|]. exists [LogException (py "OCR/PDF error:"); GcCollect].
      cbn [snd trace log]. rewrite <- !app_assoc.
      split; [done|]. apply Hno. by right.
    + split; [done|]. exists [GcCollect]. cbn [snd trace log].
      rewrite <- app_assoc. split; [done|]. apply Hno. by left.
Qed.

Lemma extract_text_without_extension_witness :
  ocr_reader (extract_text Samples.X_ok (py "./uploads/" ++ py "README")
                Samples.w0).2 = ocr_reader Samples.w0 ∧
  ∃ rest, trace (extract_text Samples.X_ok (py "./uploads/" ++ py "README")
                   Samples.w0).2
          = trace Samples.w0
            ++ FitzOpen (py "./uploads/" ++ py "README") :: rest ∧
          (∀ q, ReadText q ∉ rest) ∧ ReaderInit ∉ rest.
Proof.
  apply (extract_text_without_extension Samples.X_ok (py "./uploads/")
           (py "README") Samples.w0).
  - right. by exists (py "./uploads").
  - apply (bool_decide_eq_true_1 _). reflexivity.
Defined.


